(** * fluxer.py: cogs, snowflake codec and entity hydration

    A shallow embedding of [fluxer/cog.py], [fluxer/utils.py] and
    [fluxer/models/*.py], and the properties of the specification that
    are settled on it. *)

From Stdlib Require Import ZArith QArith Qpower Qround Qabs Lqa String Ascii List Bool Lia.
From Stdlib Require Floats Uint63.
From stdpp Require Import base option list gmap strings sorting.

Set Default Proof Using "Type".
Set Warnings "-register-all".
Local Open Scope string_scope.
Local Open Scope list_scope.

(** * Part I: the embedding *)

(** ** The Python fragment the sources are written in *)

Module Py.

(** The exceptions that the modelled code can raise. *)
Inductive PyError :=
| KeyError (key : string)
| ValueError (msg : string)
| TypeError (msg : string)
| RuntimeError (msg : string)
| AttributeError (msg : string)
| OverflowError (msg : string)
| ZeroDivisionError
| TransportError (code : Z).

(** A computation that returns or raises. *)
Inductive result (A : Type) :=
| Ok (a : A)
| Raise (e : PyError).
Arguments Ok {A} a.
Arguments Raise {A} e.

#[global] Instance result_bind : MBind result := fun A B k r =>
  match r with
  | Ok a => k a
  | Raise e => Raise e
  end.

#[global] Instance result_fmap : FMap result := fun A B f r =>
  match r with
  | Ok a => Ok (f a)
  | Raise e => Raise e
  end.

(** A list comprehension whose element expression may raise: evaluated
    from the left, the first exception ends it. *)
Fixpoint comprehension {A B} (f : A -> result B) (l : list A) : result (list B) :=
  match l with
  | [] => Ok []
  | x :: l' => y ← f x; ys ← comprehension f l'; Ok (y :: ys)
  end.

(** A decoded payload value ([Any] in the annotations). *)
Inductive Value :=
| VNone
| VBool (b : bool)
| VInt (n : Z)
| VStr (s : string)
| VList (items : list Value)
| VDict (entries : gmap string Value).

(** Truth value testing: [if x], [not x], [x or y]. *)
Definition truthy (v : Value) : bool :=
  match v with
  | VNone => false
  | VBool b => b
  | VInt n => negb (n =? 0)%Z
  | VStr s => negb (String.eqb s "")
  | VList items => match items with [] => false | _ => true end
  | VDict entries => negb (bool_decide (entries = ∅))
  end.

(** The ASCII white space that [int] skips around a literal: tab to
    carriage return, and the space.  (For the separators 0x1c to 0x1f
    [str.isspace] holds, and [int] refuses them.) *)
Definition is_space (c : ascii) : bool :=
  let n := nat_of_ascii c in
  ((9 <=? n) && (n <=? 13) || (n =? 32))%nat.

Fixpoint lstrip (s : string) : string :=
  match s with
  | String c s' => if is_space c then lstrip s' else s
  | EmptyString => s
  end.

Definition strip (s : string) : string :=
  String.rev (lstrip (String.rev (lstrip s))).

Definition digit_of (c : ascii) : option Z :=
  let n := nat_of_ascii c in
  if ((48 <=? n) && (n <=? 57))%nat then Some (Z.of_nat n - 48)%Z else None.

(** Decimal digits, with single underscores allowed between digits. *)
Fixpoint parse_digits (s : string) (acc : Z) (after_digit : bool) : option Z :=
  match s with
  | EmptyString => if after_digit then Some acc else None
  | String c s' =>
    if decide (c = "_"%char)
    then (if after_digit then parse_digits s' acc false else None)
    else match digit_of c with
         | Some d => parse_digits s' (10 * acc + d)%Z true
         | None => None
         end
  end.

(** The number of digits in a literal; [int] refuses more than
    [sys.int_info.default_max_str_digits]. *)
Fixpoint count_digits (s : string) : nat :=
  match s with
  | EmptyString => 0
  | String c s' =>
    match digit_of c with
    | Some _ => S (count_digits s')
    | None => count_digits s'
    end
  end.

Definition max_str_digits : nat := 4300.

(** [int(s)] of an ASCII string: surrounding white space, an optional
    sign, decimal digits. *)
Definition int_of_str (s : string) : option Z :=
  let literal := strip s in
  if (max_str_digits <? count_digits literal)%nat then None
  else
    match literal with
    | String "-" s' => Z.opp <$> parse_digits s' 0%Z false
    | String "+" s' => parse_digits s' 0%Z false
    | s' => parse_digits s' 0%Z false
    end.

(** [int(x)] for a payload value. *)
Definition int (v : Value) : result Z :=
  match v with
  | VInt n => Ok n
  | VBool b => Ok (if b then 1 else 0)%Z
  | VStr s =>
    match int_of_str s with
    | Some n => Ok n
    | None => Raise (ValueError "invalid literal for int() with base 10")
    end
  | _ => Raise (TypeError "int() argument must be a string, a bytes-like object or a real number")
  end.

(** [data[key]] *)
Definition getitem (data : gmap string Value) (key : string) : result Value :=
  match data !! key with
  | Some v => Ok v
  | None => Raise (KeyError key)
  end.

(** [data.get(key, default)]; [data.get(key)] is [get data key VNone]. *)
Definition get (data : gmap string Value) (key : string) (dflt : Value) : Value :=
  default dflt (data !! key).

End Py.

(** ** Python floats

    A finite [float] is the rational number it stands for. Arithmetic
    computes the exact result and rounds it to the nearest binary64 number,
    ties to the even significand, as IEEE 754 division and multiplication
    and the true division of two [int]s do. *)

Module PyFloat.

Local Open Scope Q_scope.

Definition pow2 (e : Z) : Q := Qpower 2 e.

(** Nearest integer, ties to even ([round] of Python, [rint] of C). *)
Definition round_half_even (x : Q) : Z :=
  let f := Qfloor x in
  match Qcompare (x - inject_Z f) (1 # 2) with
  | Lt => f
  | Gt => (f + 1)%Z
  | Eq => if Z.even f then f else (f + 1)%Z
  end.

(** The exponent of the binade of [x > 0]: [2^k <= x < 2^(k+1)]. *)
Definition ilog2 (x : Q) : Z :=
  let k := (Z.log2 (Qnum x) - Z.log2 (Zpos (Qden x)))%Z in
  if Qle_bool (pow2 k) x then k else (k - 1)%Z.

(** Rounding of an exact result to binary64 (53 bits of significand,
    least exponent -1074); overflow is checked where it can happen. *)
Definition round_float (x : Q) : Q :=
  if Qeq_bool x 0 then 0
  else
    let e := Z.max (ilog2 (Qabs x) - 52) (-1074) in
    inject_Z (round_half_even (x / pow2 e)) * pow2 e.

(** The numbers from [2^1024] on are not floats. *)
Definition overflows (x : Q) : bool := Qle_bool (pow2 1024) (Qabs x).

(** [a / b] on two [int]s: the correctly rounded quotient. *)
Definition truediv (a b : Z) : Py.result Q :=
  if (b =? 0)%Z then Py.Raise Py.ZeroDivisionError
  else
    let q := round_float (inject_Z a / inject_Z b) in
    if overflows q
    then Py.Raise (Py.OverflowError "integer division result too large for a float")
    else Py.Ok q.

(** [x * y] on two floats. *)
Definition mul (x y : Q) : Q := round_float (x * y).

(** [int(x)], also the integer part of [modf]: truncation towards zero. *)
Definition trunc (x : Q) : Z :=
  if Qle_bool 0 x then Qfloor x else Qceiling x.

End PyFloat.

(** The binary64 arithmetic of the machine, to compare the model with:
    the float of an integer below [2^53], and the rational a finite float
    stands for. *)
Module Binary64.

Import Floats.

Definition of_int (n : Z) : float := PrimFloat.of_uint63 (Uint63.of_Z n).

Definition value (f : float) : option Q :=
  match Prim2SF f with
  | S754_zero _ => Some 0%Q
  | S754_finite s m e =>
    Some ((if s then inject_Z (Z.neg m) else inject_Z (Z.pos m)) * Qpower 2 e)%Q
  | _ => None
  end.

Definition same_value (f : float) (x : Q) : bool :=
  match value f with
  | Some v => Qeq_bool v x
  | None => false
  end.

End Binary64.

(** ** fluxer/utils.py *)

Module Utils.

Import Py.
Local Open Scope Z_scope.

(** An aware [datetime] is the instant it denotes: microseconds since
    1970-01-01T00:00:00Z. Two aware datetimes are equal when their instants
    are. *)
Definition datetime := Z.

(** 0001-01-01T00:00:00 and 9999-12-31T23:59:59.999999, both UTC. *)
Definition datetime_min : datetime := -62135596800000000.
Definition datetime_max : datetime := 253402300799999999.

(** [datetime.fromtimestamp(t, tz=timezone.utc)]: the seconds are split
    with [modf], the fraction is scaled to microseconds in floating point
    and rounded half to even, with a carry into the seconds. *)
Definition fromtimestamp (t : Q) : result datetime :=
  let intpart := PyFloat.trunc t in
  let floatpart := (t - inject_Z intpart)%Q in
  let us := PyFloat.round_half_even (PyFloat.mul floatpart (inject_Z 1000000)) in
  let '(sec, us) :=
    if 1000000 <=? us then (intpart + 1, us - 1000000)
    else if us <? 0 then (intpart - 1, us + 1000000)
    else (intpart, us) in
  let instant := sec * 1000000 + us in
  if (datetime_min <=? instant) && (instant <=? datetime_max)
  then Ok instant
  else Raise (ValueError "year is out of range").

(** [dt.timestamp()] of an aware datetime:
    [(dt - epoch).total_seconds()], a true division of the microseconds.
    (The timestamp of a naive datetime depends on the time zone of the
    host and is not modelled.) *)
Definition timestamp (dt : datetime) : result Q :=
  PyFloat.truediv dt 1000000.

Definition FLUXER_EPOCH : Z := 1420070400000.

Definition snowflake_to_datetime (snowflake : Value) : result datetime :=
  n ← int snowflake;
  let timestamp_ms := Z.shiftr n 22 + FLUXER_EPOCH in
  t ← PyFloat.truediv timestamp_ms 1000;
  fromtimestamp t.

Definition datetime_to_snowflake (dt : datetime) : result Z :=
  t ← timestamp dt;
  let timestamp_ms := PyFloat.trunc (PyFloat.mul t (inject_Z 1000)) in
  let snowflake := Z.shiftl (timestamp_ms - FLUXER_EPOCH) 22 in
  Ok snowflake.

(** [_try_int] *)
Definition _try_int (value : Value) : result (option Z) :=
  match value with
  | VNone => Ok None
  | _ => n ← int value; Ok (Some n)
  end.

End Utils.

(** ** fluxer/cog.py *)

Module Cog.

(** A Python object as attribute discovery sees it: its identity and the
    four hidden attributes that the decorators may have put on it.
    [hasattr(f, "__cog_command__")] is the boolean, the optional names are
    the attributes [__cog_command_name__] and [__cog_listener_name__],
    which exist only when a decorator was given [name]. *)
Record EventHandler := mkHandler {
  qualname : string;
  __cog_command__ : bool;
  __cog_command_name__ : option string;
  __cog_listener__ : bool;
  __cog_listener_name__ : option string }.

#[global] Instance EventHandler_eq_dec : EqDecision EventHandler.
Proof. solve_decision. Defined.

(** [async def f(self, ...)] before any decorator. *)
Definition plain (q : string) : EventHandler :=
  mkHandler q false None false None.

(** [Cog.command(name)(func)]: sets the marker, and the name only when one
    was given. The function object is returned, so its identity and the
    tags it already carries are kept. *)
Definition command (name : option string) (func : EventHandler) : EventHandler :=
  let func := mkHandler (qualname func) true (__cog_command_name__ func)
                (__cog_listener__ func) (__cog_listener_name__ func) in
  match name with
  | Some n => mkHandler (qualname func) (__cog_command__ func) (Some n)
                (__cog_listener__ func) (__cog_listener_name__ func)
  | None => func
  end.

(** [Cog.listener(name)(func)]. *)
Definition listener (name : option string) (func : EventHandler) : EventHandler :=
  let func := mkHandler (qualname func) (__cog_command__ func)
                (__cog_command_name__ func) true (__cog_listener_name__ func) in
  match name with
  | Some n => mkHandler (qualname func) (__cog_command__ func)
                (__cog_command_name__ func) (__cog_listener__ func) (Some n)
  | None => func
  end.

(** A class statement: the assignments of its body in the order they are
    written. A name bound twice keeps the later value. *)
Definition ClassBody := list (string * EventHandler).

(** The attributes that class [Cog] itself binds. *)
Definition Cog_attrs : ClassBody :=
  [ ("__init__", plain "Cog.__init__");
    ("_discover_handlers", plain "Cog._discover_handlers");
    ("command", plain "Cog.command");
    ("listener", plain "Cog.listener");
    ("cog_load", plain "Cog.cog_load");
    ("cog_unload", plain "Cog.cog_unload");
    ("__repr__", plain "Cog.__repr__") ].

(** Names that every instance inherits from [object] and from the class
    machinery; all of them are dunder names. *)
Definition object_names : list string :=
  [ "__class__"; "__delattr__"; "__dict__"; "__dir__"; "__doc__"; "__eq__";
    "__format__"; "__ge__"; "__getattribute__"; "__getstate__"; "__gt__";
    "__hash__"; "__init_subclass__"; "__le__"; "__lt__"; "__module__";
    "__ne__"; "__new__"; "__reduce__"; "__reduce_ex__"; "__setattr__";
    "__sizeof__"; "__str__"; "__subclasshook__"; "__weakref__" ].

(** The instance of a class that derives from [Cog]: the body of that
    class, and the three attributes that [Cog.__init__] assigns before it
    runs the discovery. *)
Record Cog := mkCog {
  cls : ClassBody;
  bot : EventHandler;
  _commands : gmap string EventHandler;
  _listeners : gmap string (list EventHandler) }.

(** The class namespace seen through the instance: the subclass body
    shadows [Cog], a later assignment shadows an earlier one. *)
Definition bind (ns : gmap string EventHandler) (d : string * EventHandler)
  : gmap string EventHandler := <[d.1 := d.2]> ns.

Definition class_namespace (body : ClassBody) : gmap string EventHandler :=
  foldl bind (foldl bind ∅ Cog_attrs) body.

(** The names in the instance dictionary after [__init__] has assigned
    them. *)
Definition instance_names : list string := ["bot"; "_commands"; "_listeners"].

(** [dir(self)]: every attribute name once, in sorted order. Python sorts
    strings by code point, which on the UTF-8 bytes of a name is the order
    of [String.le]. *)
Definition attribute_names (self : Cog) : gset string :=
  list_to_set instance_names ∪ dom (class_namespace (cls self))
    ∪ list_to_set object_names.

Definition dir (self : Cog) : list string :=
  merge_sort String.le (elements (attribute_names self)).

(** [getattr(self, name)] for the names the loop asks for. The instance
    dictionary is searched before the functions of the class. *)
Definition getattr (self : Cog) (name : string) : option EventHandler :=
  if decide (name = "bot") then Some (bot self)
  else class_namespace (cls self) !! name.

(** [name.startswith("_")] *)
Definition startswith_underscore (name : string) : bool :=
  match name with
  | String c _ => if decide (c = "_"%char) then true else false
  | EmptyString => false
  end.

(** [getattr(method, "__cog_command_name__", name)] *)
Definition cmd_name (name : string) (method : EventHandler) : string :=
  default name (__cog_command_name__ method).

(** [getattr(method, "__cog_listener_name__", name)] *)
Definition event_name (name : string) (method : EventHandler) : string :=
  default name (__cog_listener_name__ method).

Definition register_command (name : string) (method : EventHandler) (self : Cog) : Cog :=
  if __cog_command__ method
  then mkCog (cls self) (bot self)
         (<[cmd_name name method := method]> (_commands self)) (_listeners self)
  else self.

Definition register_listener (name : string) (method : EventHandler) (self : Cog) : Cog :=
  if __cog_listener__ method
  then
    let ev := event_name name method in
    let listeners :=
      match _listeners self !! ev with
      | None => <[ev := []]> (_listeners self)
      | Some _ => _listeners self
      end in
    mkCog (cls self) (bot self) (_commands self)
      (<[ev := default [] (listeners !! ev) ++ [method]]> listeners)
  else self.

(** One turn of the loop of [_discover_handlers]. A name of [dir(self)]
    always resolves; the [None] branch is never taken. *)
Definition discover_step (self : Cog) (name : string) : Cog :=
  if startswith_underscore name then self
  else
    match getattr self name with
    | Some method => register_listener name method (register_command name method self)
    | None => self
    end.

Definition _discover_handlers (self : Cog) : Cog :=
  foldl discover_step self (dir self).

(** [Cog.__init__] of an instance of the class with body [body]. *)
Definition __init__ (body : ClassBody) (bot : EventHandler) : Cog :=
  _discover_handlers (mkCog body bot ∅ ∅).

(** *** The order of discovery

    What the loop looks at: the names of [dir(self)] that do not start with
    an underscore, each with the object it resolves to, in the order of
    [dir]. *)
Definition visit (self : Cog) (name : string) : option (string * EventHandler) :=
  if startswith_underscore name then None
  else (fun method => (name, method)) <$> getattr self name.

Definition discovered (self : Cog) : list (string * EventHandler) :=
  omap (visit self) (dir self).

Definition is_command_for (c : string) (d : string * EventHandler) : bool :=
  __cog_command__ d.2 && bool_decide (cmd_name d.1 d.2 = c).

Definition is_listener_for (e : string) (d : string * EventHandler) : bool :=
  __cog_listener__ d.2 && bool_decide (event_name d.1 d.2 = e).

(** The methods of a sequence of bindings that are commands named [c],
    and those that listen to [e], in the order of the sequence. *)
Definition commands_named (c : string) (ds : list (string * EventHandler))
  : list EventHandler := (List.filter (is_command_for c) ds).*2.

Definition listeners_named (e : string) (ds : list (string * EventHandler))
  : list EventHandler := (List.filter (is_listener_for e) ds).*2.


End Cog.

(** ** fluxer/models *)

Module Models.

Import Py.
Local Open Scope Z_scope.

(** *** reaction.py: PartialEmoji *)

Record PartialEmoji := mkPartialEmoji {
  emoji_name : Value;
  emoji_id : option Z;
  emoji_animated : Value }.

Definition PartialEmoji_from_data (data : gmap string Value) : result PartialEmoji :=
  let emoji_id := get data "id" VNone in
  id ← (if truthy emoji_id then n ← int emoji_id; Ok (Some n) else Ok None);
  Ok (mkPartialEmoji (get data "name" VNone) id (get data "animated" (VBool false))).

(** *** The transport (http.py is not part of the sources)

    The operations of [HTTPClient] that the models call, typed by the
    contract of the transport: each returns its payload or raises.
    [http_truthy] is the truth value of the client object, which
    [Reaction] and [Guild] test with [not self._http]. *)
Record HTTPClient := mkHTTPClient {
  send_message : Z -> gmap string Value -> result (gmap string Value);
  get_message : Z -> Value -> result (gmap string Value);
  edit_message : Z -> Z -> gmap string Value -> result (gmap string Value);
  delete_message : Z -> Z -> result unit;
  delete_reaction : Z -> Z -> PartialEmoji -> Value -> result unit;
  delete_all_reactions_for_emoji : Z -> Z -> PartialEmoji -> result unit;
  get_guild_emojis : Z -> result (list (gmap string Value));
  http_truthy : bool }.

(** [self._http.method(...)]: looking a method up on [None] raises
    [AttributeError]. *)
Definition deref {A} (http : option HTTPClient) (method : string)
    (call : HTTPClient -> result A) : result A :=
  match http with
  | Some client => call client
  | None => Raise (AttributeError ("'NoneType' object has no attribute '" +:+ method +:+ "'"))
  end.

(** [not self._http] *)
Definition not_http (http : option HTTPClient) : bool :=
  match http with
  | Some client => negb (http_truthy client)
  | None => true
  end.

(** *** user.py and embed.py (not part of the sources)

    [User] and [Embed] are used through these operations only. *)
Class Collaborators := {
  User : Type;
  User_from_data : Value -> option HTTPClient -> result User;
  User_id : User -> Z;
  Embed : Type;
  Embed_truthy : Embed -> bool;
  Embed_to_dict : Embed -> Value }.

Section WithCollaborators.
Context `{Collaborators}.

(** *** channel.py *)

Record Channel := mkChannel {
  channel_id_ : Z;
  channel_type : Value;
  channel_name : Value;
  channel_guild_id : option Z;
  channel_position : Value;
  channel_topic : Value;
  channel_nsfw : Value;
  channel_parent_id : option Z;
  channel_http : option HTTPClient }.

(** [int(data[key]) if data.get(key) else None] *)
Definition optional_id (data : gmap string Value) (key : string) : result (option Z) :=
  if truthy (get data key VNone)
  then v ← getitem data key; n ← int v; Ok (Some n)
  else Ok None.

Definition Channel_from_data (data : gmap string Value) (http : option HTTPClient)
  : result Channel :=
  v ← getitem data "id";
  id ← int v;
  type ← getitem data "type";
  guild_id ← optional_id data "guild_id";
  parent_id ← optional_id data "parent_id";
  Ok (mkChannel id type (get data "name" VNone) guild_id
        (get data "position" VNone) (get data "topic" VNone)
        (get data "nsfw" (VBool false)) parent_id http).

(** *** message.py *)

Record Message := mkMessage {
  message_id : Z;
  message_channel_id : Z;
  message_content : Value;
  message_author : User;
  message_timestamp : Value;
  message_edited_timestamp : Value;
  message_guild_id : option Z;
  message_embeds : Value;
  message_attachments : Value;
  message_mentions : list User;
  message_pinned : Value;
  message_http : option HTTPClient;
  message_channel : option Channel }.

(** [for u in x]: the elements of a list, the characters of a string, the
    keys of a dict (in the order of the model, not of insertion). *)
Definition iterate (x : Value) : result (list Value) :=
  match x with
  | VList items => Ok items
  | VStr s => Ok ((fun c => VStr (String c EmptyString)) <$> list_ascii_of_string s)
  | VDict entries => Ok (VStr <$> (map_to_list entries).*1)
  | _ => Raise (TypeError "object is not iterable")
  end.

Definition Message_from_data (data : gmap string Value) (http : option HTTPClient)
  : result Message :=
  a ← getitem data "author";
  author ← User_from_data a http;
  us ← iterate (get data "mentions" (VList []));
  mentions ← comprehension (fun u => User_from_data u http) us;
  v ← getitem data "id";
  id ← int v;
  v ← getitem data "channel_id";
  channel_id ← int v;
  timestamp ← getitem data "timestamp";
  guild_id ← optional_id data "guild_id";
  Ok (mkMessage id channel_id (get data "content" (VStr "")) author timestamp
        (get data "edited_timestamp" VNone) guild_id
        (get data "embeds" (VList [])) (get data "attachments" (VList []))
        mentions (get data "pinned" (VBool false)) http None).

Definition Message_reply (self : Message) (content : Value) (kwargs : gmap string Value)
  : result Message :=
  if bool_decide (message_http self = None)
  then Raise (RuntimeError "Message is not bound to an HTTP client")
  else
    data ← deref (message_http self) "send_message" (fun h =>
              send_message h (message_channel_id self) (<["content" := content]> kwargs));
    Message_from_data data (message_http self).

Definition Message_edit (self : Message) (content : Value) (kwargs : gmap string Value)
  : result Message :=
  if bool_decide (message_http self = None)
  then Raise (RuntimeError "Message is not bound to an HTTP client")
  else
    data ← deref (message_http self) "edit_message" (fun h =>
              edit_message h (message_channel_id self) (message_id self)
                (<["content" := content]> kwargs));
    Message_from_data data (message_http self).

Definition Message_delete (self : Message) : result unit :=
  if bool_decide (message_http self = None)
  then Raise (RuntimeError "Message is not bound to an HTTP client")
  else
    deref (message_http self) "delete_message" (fun h =>
      delete_message h (message_channel_id self) (message_id self)).

(** *** channel.py, the bound operations *)

Definition Channel_send (self : Channel) (content : Value) (embed : option Embed)
    (embeds : option (list Embed)) (files message_reference : Value)
  : result Message :=
  if bool_decide (channel_http self = None)
  then Raise (RuntimeError "Channel is not bound to an HTTP client")
  else
    let embed_list :=
      match embed with
      | Some e =>
        if Embed_truthy e then VList [Embed_to_dict e]
        else match embeds with
             | Some (e' :: es) => VList (Embed_to_dict <$> (e' :: es))
             | _ => VNone
             end
      | None =>
        match embeds with
        | Some (e' :: es) => VList (Embed_to_dict <$> (e' :: es))
        | _ => VNone
        end
      end in
    data ← deref (channel_http self) "send_message" (fun h =>
              send_message h (channel_id_ self)
                (<["content" := content]> (<["embeds" := embed_list]>
                  (<["files" := files]> (<["message_reference" := message_reference]> ∅)))));
    Message_from_data data (channel_http self).

Definition Channel_fetch_message (self : Channel) (message_id : Value) : result Message :=
  if bool_decide (channel_http self = None)
  then Raise (RuntimeError "Channel is not bound to an HTTP client")
  else
    data ← deref (channel_http self) "get_message" (fun h =>
              get_message h (channel_id_ self) message_id);
    Message_from_data data (channel_http self).

(** *** reaction.py: Reaction *)

Record Reaction := mkReaction {
  reaction_emoji : PartialEmoji;
  reaction_count : Value;
  reaction_me : Value;
  reaction_message : option Message;
  reaction_http : option HTTPClient }.

(** [self._message.attr]: on [None] an [AttributeError]. *)
Definition deref_message {A} (message : option Message) (attr : string)
    (read : Message -> A) : result A :=
  match message with
  | Some m => Ok (read m)
  | None => Raise (AttributeError ("'NoneType' object has no attribute '" +:+ attr +:+ "'"))
  end.

(** [not self._message]: a [Message] object is always true. *)
Definition not_message (message : option Message) : bool :=
  match message with
  | Some _ => false
  | None => true
  end.

(** [user] is a [User] or a raw identifier. *)
Definition Reaction_remove (self : Reaction) (user : User + Value) : result unit :=
  if not_http (reaction_http self) || not_message (reaction_message self)
  then Raise (RuntimeError "Cannot remove reaction without HTTPClient and Message")
  else
    let user_id := match user with inl u => VInt (User_id u) | inr raw => raw end in
    deref (reaction_http self) "delete_reaction" (fun h =>
      channel_id ← deref_message (reaction_message self) "channel_id" message_channel_id;
      id ← deref_message (reaction_message self) "id" message_id;
      delete_reaction h channel_id id (reaction_emoji self) user_id).

Definition Reaction_clear (self : Reaction) : result unit :=
  if not_http (reaction_http self) || not_message (reaction_message self)
  then Raise (RuntimeError "Cannot clear reaction without HTTPClient and Message")
  else
    deref (reaction_http self) "delete_all_reactions_for_emoji" (fun h =>
      channel_id ← deref_message (reaction_message self) "channel_id" message_channel_id;
      id ← deref_message (reaction_message self) "id" message_id;
      delete_all_reactions_for_emoji h channel_id id (reaction_emoji self)).

(** *** guild.py *)

Record Guild := mkGuild {
  guild_id_ : Z;
  guild_name : Value;
  guild_icon : Value;
  guild_owner_id : option Z;
  guild_member_count : Value;
  guild_unavailable : Value;
  guild_http : option HTTPClient }.

Definition Guild_from_data (data : gmap string Value) (http : option HTTPClient)
  : result Guild :=
  v ← getitem data "id";
  id ← int v;
  owner_id ← optional_id data "owner_id";
  Ok (mkGuild id (get data "name" VNone) (get data "icon" VNone) owner_id
        (get data "member_count" VNone) (get data "unavailable" (VBool false)) http).

(** Modelled from the spec: [Emoji] and [Emoji.from_data] of emoji.py, which
    is not part of the sources. The spec gives the emoji an identifier, a
    name and the identifier of its guild; the guild id handed in by the
    caller is injected into the emoji, and the payload's own optional
    [guild_id] is used only when none is handed in. *)
Record Emoji := mkEmoji {
  Emoji_id : Z;
  Emoji_name : Value;
  Emoji_guild_id : option Z;
  Emoji_http : option HTTPClient }.

(** Modelled from the spec: [Emoji.from_data(data, http, guild_id=None)];
    the identifier is a required key, and a guild id that is handed in is
    the emoji's [guild_id] whatever the payload holds. *)
Definition Emoji_from_data (data : gmap string Value) (http : option HTTPClient)
    (guild_id : option Z) : result Emoji :=
  v ← getitem data "id";
  id ← int v;
  gid ← match guild_id with
        | Some g => Ok (Some g)
        | None => optional_id data "guild_id"
        end;
  Ok (mkEmoji id (get data "name" VNone) gid http).

Definition Guild_fetch_emojis (self : Guild) : result (list Emoji) :=
  if not_http (guild_http self)
  then Raise (RuntimeError "Cannot fetch emojis without HTTPClient")
  else
    data ← deref (guild_http self) "get_guild_emojis" (fun h =>
              get_guild_emojis h (guild_id_ self));
    comprehension (fun emoji_data =>
      Emoji_from_data emoji_data (guild_http self) (Some (guild_id_ self))) data.

End WithCollaborators.


(** The failure of a bound operation on an entity that is not bound. *)
Definition Unbound (e : PyError) : Prop :=
  match e with
  | RuntimeError _ => True
  | _ => False
  end.

End Models.

(** ** Sample inputs

    A user and embed model to run the operations on (a user is its
    identifier, hydrated from the [id] of a dict payload; an embed is the
    dict it serialises to), a transport that answers every request with
    fixed payloads, unbound entities, and a cog class. *)

Module Samples.

Import Py Models Cog.
Local Open Scope Z_scope.

Definition fixture : Collaborators := {|
  User := Z;
  User_from_data := fun data _ =>
    match data with
    | VDict entries => v ← getitem entries "id"; int v
    | _ => Raise (TypeError "payload is not a dict")
    end;
  User_id := fun u => u;
  Embed := Value;
  Embed_truthy := truthy;
  Embed_to_dict := fun e => e |}.

#[local] Existing Instance fixture.

(** A transport that answers every request with fixed payloads. *)
Definition stub_message : gmap string Value :=
  {[ "id" := VStr "42"; "channel_id" := VInt 5;
     "author" := VDict {[ "id" := VInt 7 ]}; "timestamp" := VStr "2024-01-01T00:00:00Z" ]}.

Definition stub_emojis : list (gmap string Value) :=
  [ {[ "id" := VStr "5"; "name" := VStr "wave" ]};
    {[ "id" := VInt 6; "name" := VStr "nod"; "guild_id" := VInt 99 ]} ].

Definition stub_client : HTTPClient := {|
  send_message := fun _ _ => Ok stub_message;
  get_message := fun _ _ => Ok stub_message;
  edit_message := fun _ _ _ => Ok stub_message;
  delete_message := fun _ _ => Ok tt;
  delete_reaction := fun _ _ _ _ => Ok tt;
  delete_all_reactions_for_emoji := fun _ _ _ => Ok tt;
  get_guild_emojis := fun _ => Ok stub_emojis;
  http_truthy := true |}.

Definition unbound_channel : Channel :=
  mkChannel 5 (VInt 0) (VStr "general") None VNone VNone (VBool false) None None.

Definition unbound_message : Message :=
  mkMessage 42 5 (VStr "hello") 7 (VStr "2024-01-01T00:00:00Z") VNone None
    (VList []) (VList []) [] (VBool false) None None.

Definition thumbs_up : PartialEmoji := mkPartialEmoji (VStr "+1") None (VBool false).

Definition hello : EventHandler := command (Some "hi") (plain "Greeter.hello").
Definition ping : EventHandler := command None (plain "Greeter.ping").
Definition zeta : EventHandler := listener (Some "on_message") (plain "Greeter.zeta").
Definition alpha : EventHandler := listener (Some "on_message") (plain "Greeter.alpha").
Definition _hidden : EventHandler :=
  command None (listener (Some "on_message") (plain "Greeter._hidden")).
Definition the_bot : EventHandler := plain "bot".

(** [class Greeter(Cog)], its methods in the order of the class body. *)
Definition Greeter : ClassBody :=
  [ ("zeta", zeta); ("hello", hello); ("_hidden", _hidden);
    ("alpha", alpha); ("ping", ping) ].





End Samples.

(** ** fluxer/utils.py: the MIME table *)

Module Mime.

(** [str.lower] on the ASCII letters. (Of the characters outside ASCII only
    the Kelvin sign lowers to an ASCII letter, [k], which no key of the
    table holds.) *)
Definition lower_char (c : ascii) : ascii :=
  let n := nat_of_ascii c in
  if ((65 <=? n) && (n <=? 90))%nat then ascii_of_nat (n + 32) else c.

Fixpoint lower (s : string) : string :=
  match s with
  | EmptyString => EmptyString
  | String c s' => String (lower_char c) (lower s')
  end.

(** ["." in s] *)
Fixpoint contains_dot (s : string) : bool :=
  match s with
  | EmptyString => false
  | String c s' => if decide (c = "."%char) then true else contains_dot s'
  end.

(** The two sides of the last dot of [s], when it has one. *)
Fixpoint split_last_dot (s : string) : option (string * string) :=
  match s with
  | EmptyString => None
  | String c s' =>
    match split_last_dot s' with
    | Some (h, t) => Some (String c h, t)
    | None => if decide (c = "."%char) then Some (EmptyString, s') else None
    end
  end.

(** [s.rsplit(".", 1)] *)
Definition rsplit_dot (s : string) : list string :=
  match split_last_dot s with
  | Some (h, t) => [h; t]
  | None => [s]
  end.

Definition mime_map : gmap string string :=
  list_to_map
    [ ("png", "image/png"); ("jpg", "image/jpeg"); ("jpeg", "image/jpeg");
      ("gif", "image/gif"); ("webp", "image/webp"); ("mp4", "video/mp4");
      ("mp3", "audio/mpeg"); ("ogg", "audio/ogg"); ("wav", "audio/wav");
      ("txt", "text/plain"); ("json", "application/json");
      ("pdf", "application/pdf") ].

Definition _get_mime_type (filename : string) : string :=
  let ext :=
    if contains_dot filename
    then lower (default EmptyString (last (rsplit_dot filename)))
    else EmptyString in
  default "application/octet-stream" (mime_map !! ext).

End Mime.

(** ** fluxer/models: the properties, comparisons and other constructors *)

Module Entities.

Import Py Utils Models.
Local Open Scope Z_scope.

(** [hash(n)] of an [int] on a 64-bit build: the value reduced modulo
    [2^61 - 1] with its sign, and -2 in place of -1. *)
Definition hash_int (n : Z) : Z :=
  let h := Z.sgn n * (Z.abs n mod (2 ^ 61 - 1)) in
  if h =? -1 then -2 else h.

(** [x or y] *)
Definition or_else (x y : Value) : Value := if truthy x then x else y.

(** [data.get] is looked up on a payload value: anything but a dict has no
    such attribute. *)
Definition with_get (v : Value) : result (gmap string Value) :=
  match v with
  | VDict entries => Ok entries
  | _ => Raise (AttributeError "object has no attribute 'get'")
  end.

(** How hydrating the payload [d] fails with [e]: a key that is read with
    [data[key]] is missing, which is the [KeyError] on it, or [int] refuses
    the value of an identifier key, which is the error of [int]. *)
Definition hydration_failure (required ids : list string)
    (d : gmap string Value) (e : PyError) : Prop :=
  (exists k, k ∈ required /\ d !! k = None /\ e = KeyError k) \/
  (exists k v, k ∈ ids /\ d !! k = Some v /\ int v = Raise e).

(** *** reaction.py *)

(** [self.id is None] and [self.id is not None] *)
Definition is_unicode_emoji (self : PartialEmoji) : bool :=
  bool_decide (emoji_id self = None).

Definition is_custom_emoji (self : PartialEmoji) : bool :=
  negb (bool_decide (emoji_id self = None)).

Record RawReactionActionEvent := mkRawReactionActionEvent {
  action_message_id : Z;
  action_channel_id : Z;
  action_guild_id : option Z;
  action_user_id : Z;
  action_emoji : PartialEmoji;
  action_event_type : string }.

Definition RawReactionActionEvent_from_data (data : gmap string Value)
    (event_type : string) : result RawReactionActionEvent :=
  v ← getitem data "emoji";
  d ← with_get v;
  emoji ← PartialEmoji_from_data d;
  v ← getitem data "message_id";
  message_id ← int v;
  v ← getitem data "channel_id";
  channel_id ← int v;
  guild_id ← optional_id data "guild_id";
  v ← getitem data "user_id";
  user_id ← int v;
  Ok (mkRawReactionActionEvent message_id channel_id guild_id user_id emoji event_type).

Record RawReactionClearEvent := mkRawReactionClearEvent {
  clear_message_id : Z;
  clear_channel_id : Z;
  clear_guild_id : option Z }.

Definition RawReactionClearEvent_from_data (data : gmap string Value)
  : result RawReactionClearEvent :=
  v ← getitem data "message_id";
  message_id ← int v;
  v ← getitem data "channel_id";
  channel_id ← int v;
  guild_id ← optional_id data "guild_id";
  Ok (mkRawReactionClearEvent message_id channel_id guild_id).

Record RawReactionClearEmojiEvent := mkRawReactionClearEmojiEvent {
  clear_emoji_message_id : Z;
  clear_emoji_channel_id : Z;
  clear_emoji_guild_id : option Z;
  clear_emoji_emoji : PartialEmoji }.

Definition RawReactionClearEmojiEvent_from_data (data : gmap string Value)
  : result RawReactionClearEmojiEvent :=
  v ← getitem data "emoji";
  d ← with_get v;
  emoji ← PartialEmoji_from_data d;
  v ← getitem data "message_id";
  message_id ← int v;
  v ← getitem data "channel_id";
  channel_id ← int v;
  guild_id ← optional_id data "guild_id";
  Ok (mkRawReactionClearEmojiEvent message_id channel_id guild_id emoji).

(** *** channel.py, guild.py *)

Definition Channel_created_at (self : Channel) : result datetime :=
  snowflake_to_datetime (VInt (channel_id_ self)).

Definition Guild_created_at (self : Guild) : result datetime :=
  snowflake_to_datetime (VInt (guild_id_ self)).

(** [Channel.__eq__(self, other)]; [other] is a channel or another object. *)
Definition Channel_eq (self : Channel) (other : Channel + Value) : bool :=
  match other with
  | inl channel => channel_id_ self =? channel_id_ channel
  | inr _ => false
  end.

(** [Channel.__hash__] *)
Definition Channel_hash (self : Channel) : Z := hash_int (channel_id_ self).

(** *** user.py (not part of the sources): the names of a user *)
Class UserNames `{Collaborators} := {
  User_global_name : User -> Value;
  User_username : User -> Value }.

Section WithUsers.
Context `{UserNames}.

(** *** message.py, reaction.py *)

Definition Message_created_at (self : Message) : result datetime :=
  snowflake_to_datetime (VInt (message_id self)).

(** The property [Message.channel]. *)
Definition Message_channel (self : Message) : option Channel := message_channel self.

Definition Reaction_from_data (data : gmap string Value) (http : option HTTPClient)
    (message : option Message) : result Reaction :=
  v ← getitem data "emoji";
  d ← with_get v;
  emoji ← PartialEmoji_from_data d;
  Ok (mkReaction emoji (get data "count" (VInt 0)) (get data "me" (VBool false))
        message http).

(** *** member.py *)

Record GuildMember := mkGuildMember {
  member_user : User;
  member_nick : Value;
  member_avatar_hash : Value;
  member_banner : Value;
  member_accent_color : Value;
  member_roles : list Z;
  member_joined_at : Value;
  member_join_source_type : Value;
  member_source_invite_code : Value;
  member_inviter_id : option Z;
  member_mute : Value;
  member_deaf : Value;
  member_communication_disabled_until : Value;
  member_http : option HTTPClient }.

Definition GuildMember_from_data (data : gmap string Value) (http : option HTTPClient)
  : result GuildMember :=
  u ← getitem data "user";
  user ← User_from_data u http;
  role_ids ← iterate (get data "roles" (VList []));
  roles ← comprehension int role_ids;
  inviter_id ← optional_id data "inviter_id";
  Ok (mkGuildMember user (get data "nick" VNone) (get data "avatar" VNone)
        (get data "banner" VNone) (get data "accent_color" VNone) roles
        (get data "joined_at" VNone) (get data "join_source_type" VNone)
        (get data "source_invite_code" VNone) inviter_id
        (get data "mute" (VBool false)) (get data "deaf" (VBool false))
        (get data "communication_disabled_until" VNone) http).

(** [self.nick or self.user.global_name or self.user.username] *)
Definition GuildMember_display_name (self : GuildMember) : Value :=
  or_else (member_nick self)
    (or_else (User_global_name (member_user self)) (User_username (member_user self))).

End WithUsers.

End Entities.

(** ** More sample inputs

    Names for the sample users, a bound channel, a transport whose every
    request fails, and payloads of the gateway. *)

Module Fixtures.

Import Py Cog Models Entities Samples.
Local Open Scope Z_scope.

#[local] Existing Instance fixture.

Definition names : UserNames := {|
  User_global_name := fun u => if u =? 7 then VStr "Seven" else VNone;
  User_username := fun u => VStr "user" |}.

Definition failing_client (e : PyError) : HTTPClient := {|
  send_message := fun _ _ => Raise e;
  get_message := fun _ _ => Raise e;
  edit_message := fun _ _ _ => Raise e;
  delete_message := fun _ _ => Raise e;
  delete_reaction := fun _ _ _ _ => Raise e;
  delete_all_reactions_for_emoji := fun _ _ _ => Raise e;
  get_guild_emojis := fun _ => Raise e;
  http_truthy := true |}.

Definition bound_to (http : HTTPClient) : Channel :=
  mkChannel 5 (VInt 0) (VStr "general") None VNone VNone (VBool false) None (Some http).

Definition message_of (http : HTTPClient) : Message :=
  mkMessage 42 5 (VStr "hello") 7 (VStr "2024-01-01T00:00:00Z") VNone None
    (VList []) (VList []) [] (VBool false) (Some http) None.

Definition guild_of (http : HTTPClient) : Guild :=
  mkGuild 99 (VStr "home") VNone None VNone (VBool false) (Some http).

(** The entities that the payloads below hydrate to with [stub_client]. *)
Definition a_channel : Channel :=
  mkChannel 1462015105796000000 (VInt 0) (VStr "general") None VNone VNone (VBool false)
    None (Some stub_client).

Definition a_guild : Guild :=
  mkGuild 175928847299117063 (VStr "home") VNone None VNone (VBool false) (Some stub_client).

Definition a_message : Message :=
  mkMessage 42 5 (VStr "") 7 (VStr "2024-01-01T00:00:00Z") VNone None (VList []) (VList [])
    [] (VBool false) (Some stub_client) None.

Definition general : gmap string Value :=
  {[ "id" := VStr "1462015105796000000"; "type" := VInt 0; "name" := VStr "general" ]}.

Definition general' : gmap string Value :=
  {[ "id" := VInt 1462015105796000000; "type" := VInt 2; "guild_id" := VInt 99 ]}.

Definition home : gmap string Value :=
  {[ "id" := VInt 175928847299117063; "name" := VStr "home" ]}.

Definition reaction_added : gmap string Value :=
  {[ "emoji" := VDict {[ "name" := VStr "wave"; "id" := VStr "5" ]};
     "message_id" := VStr "42"; "channel_id" := VInt 5; "guild_id" := VInt 0;
     "user_id" := VInt 7 ]}.

(** All reactions removed from a message, and all reactions of one emoji:
    neither payload names a user. *)
Definition reactions_cleared : gmap string Value :=
  {[ "message_id" := VStr "42"; "channel_id" := VInt 5 ]}.

Definition emoji_cleared : gmap string Value :=
  {[ "emoji" := VDict {[ "name" := VStr "wave"; "id" := VStr "5" ]};
     "message_id" := VStr "42"; "channel_id" := VInt 5; "guild_id" := VStr "" ]}.

Definition thumbs : gmap string Value :=
  {[ "emoji" := VDict {[ "name" := VStr "+1"; "id" := VNone ]}; "count" := VInt 3 ]}.

Definition newcomer : gmap string Value :=
  {[ "user" := VDict {[ "id" := VInt 7 ]}; "nick" := VStr "";
     "roles" := VList [VStr "10"; VInt 11]; "inviter_id" := VStr "" ]}.

(** A class whose body tags nothing, and one that binds a command to the
    name [bot]. *)
Definition Plain : ClassBody := [ ("helper", plain "Plain.helper") ].

Definition bot_method : EventHandler := command None (plain "Shadowed.bot").

Definition Shadowed : ClassBody := [ ("bot", bot_method); ("ping", ping) ].

End Fixtures.

(** * Part II: the properties *)

(** ** Rounding to binary64 *)

Section FloatFacts.

Import PyFloat.
Local Open Scope Q_scope.

Lemma Qfloor_unique (x : Q) (z : Z) :
  inject_Z z <= x -> x < inject_Z z + 1 -> Qfloor x = z.
Proof.
  intros Hlo Hhi.
  pose proof (Qfloor_le x) as H1. pose proof (Qlt_floor x) as H2.
  rewrite inject_Z_plus in H2. change (inject_Z 1) with 1 in H2.
  assert (inject_Z z < inject_Z (Qfloor x) + 1) as A by lra.
  assert (inject_Z (Qfloor x) < inject_Z z + 1) as B by lra.
  change 1 with (inject_Z 1) in A, B. rewrite <- inject_Z_plus in A, B.
  rewrite <- Zlt_Qlt in A, B. lia.
Qed.

Lemma round_half_even_bounds (x : Q) :
  x - (1 # 2) <= inject_Z (round_half_even x) /\ inject_Z (round_half_even x) <= x + (1 # 2).
Proof.
  unfold round_half_even.
  pose proof (Qfloor_le x) as H1. pose proof (Qlt_floor x) as H2.
  rewrite inject_Z_plus in H2. change (inject_Z 1) with 1 in H2.
  destruct (Qcompare (x - inject_Z (Qfloor x)) (1 # 2)) eqn:E.
  - apply Qeq_alt in E.
    destruct (Z.even (Qfloor x)); [| rewrite inject_Z_plus; change (inject_Z 1) with 1]; lra.
  - apply Qlt_alt in E. lra.
  - apply Qgt_alt in E. rewrite inject_Z_plus; change (inject_Z 1) with 1. lra.
Qed.

Lemma round_half_even_unique (x : Q) (z : Z) :
  inject_Z z - (1 # 2) < x -> x < inject_Z z + (1 # 2) -> round_half_even x = z.
Proof.
  intros Hlo Hhi.
  pose proof (round_half_even_bounds x) as [B1 B2].
  assert (inject_Z z < inject_Z (round_half_even x) + 1) as A by lra.
  assert (inject_Z (round_half_even x) < inject_Z z + 1) as B by lra.
  change 1 with (inject_Z 1) in A, B. rewrite <- inject_Z_plus in A, B.
  rewrite <- Zlt_Qlt in A, B. lia.
Qed.

Lemma pow2_pos e : 0 < pow2 e.
Proof. apply Qpower_0_lt. reflexivity. Qed.

Lemma pow2_succ e : pow2 (e + 1) == 2 * pow2 e.
Proof.
  unfold pow2. rewrite Qpower_plus by (intros E; discriminate E).
  change (2 ^ 1) with 2. ring.
Qed.

Lemma pow2_le a b : (a <= b)%Z -> pow2 a <= pow2 b.
Proof. intros. apply Qpower_le_compat_l; [assumption | discriminate]. Qed.

Lemma pow2_lt_inv a b : pow2 a < pow2 b -> (a < b)%Z.
Proof. intros. apply (Qpower_lt_compat_l_inv 2); [assumption | reflexivity]. Qed.

Lemma pow2_Z a : (0 <= a)%Z -> inject_Z (2 ^ a) == pow2 a.
Proof. intros. unfold pow2. rewrite Zpower_Qpower by assumption. reflexivity. Qed.

Lemma pow2_sub a b : pow2 (a - b) * pow2 b == pow2 a.
Proof.
  unfold pow2. rewrite <- Qpower_plus by (intros E; discriminate E).
  replace (a - b + b)%Z with a by ring. reflexivity.
Qed.

Lemma ilog2_spec (x : Q) :
  0 < x -> pow2 (ilog2 x) <= x /\ x < pow2 (ilog2 x + 1).
Proof.
  intros Hx. unfold ilog2.
  destruct x as [n d]. cbn [Qnum Qden].
  assert (0 < n)%Z as Hn by (unfold Qlt in Hx; cbn in Hx; lia).
  set (a := Z.log2 n). set (b := Z.log2 (Z.pos d)).
  pose proof (Z.log2_spec n Hn) as [Ha1 Ha2]. fold a in Ha1, Ha2.
  pose proof (Z.log2_spec (Z.pos d) (Pos2Z.is_pos d)) as [Hb1 Hb2]. fold b in Hb1, Hb2.
  pose proof (Z.log2_nonneg n) as Ha0. fold a in Ha0.
  pose proof (Z.log2_nonneg (Z.pos d)) as Hb0. fold b in Hb0.
  rewrite Zle_Qle, pow2_Z in Ha1, Hb1 by lia.
  rewrite Zlt_Qlt in Ha2, Hb2.
  replace (Z.succ a) with (a + 1)%Z in Ha2 by lia.
  replace (Z.succ b) with (b + 1)%Z in Hb2 by lia.
  rewrite pow2_Z, pow2_succ in Ha2, Hb2 by lia.
  pose proof (pow2_sub a b) as HK.
  pose proof (pow2_pos (a - b)) as HP. pose proof (pow2_pos b) as HB.
  pose proof (pow2_succ (a - b)) as HS.
  pose proof (pow2_succ (a - b - 1)) as HS'.
  replace (a - b - 1 + 1)%Z with (a - b)%Z in HS' by ring.
  assert (0 < inject_Z (Z.pos d)) as HD by (change 0 with (inject_Z 0); rewrite <- Zlt_Qlt; lia).
  assert ((n # d) * inject_Z (Z.pos d) == inject_Z n) as HN.
  { rewrite (Qmake_Qdiv n d). field. intros E. rewrite E in HD. discriminate HD. }
  set (x := n # d) in *. set (D := inject_Z (Z.pos d)) in *. set (N := inject_Z n) in *.
  set (P := pow2 (a - b)) in *. set (A := pow2 a) in *. set (B := pow2 b) in *.
  destruct (Qle_bool P x) eqn:E.
  - apply Qle_bool_iff in E. split; [assumption|].
    rewrite HS. nra.
  - assert (x < P) as E'.
    { apply Qnot_le_lt. intros C. apply Qle_bool_iff in C. congruence. }
    replace (a - b - 1 + 1)%Z with (a - b)%Z by ring. split; [|exact E'].
    fold P in HS'. nra.
Qed.

Lemma ilog2_upper (x : Q) (K : Z) : 0 < x -> x < pow2 (K + 1) -> (ilog2 x <= K)%Z.
Proof.
  intros Hx Hlt. destruct (ilog2_spec x Hx) as [H1 _].
  assert (ilog2 x < K + 1)%Z; [|lia].
  apply pow2_lt_inv. lra.
Qed.

Lemma ilog2_lower (x : Q) (K : Z) : 0 < x -> pow2 K <= x -> (K <= ilog2 x)%Z.
Proof.
  intros Hx Hle. destruct (ilog2_spec x Hx) as [_ H2].
  assert (K < ilog2 x + 1)%Z; [|lia].
  apply pow2_lt_inv. lra.
Qed.

Lemma pow2_half e : pow2 (e - 1) == (1 # 2) * pow2 e.
Proof.
  pose proof (pow2_succ (e - 1)) as H.
  replace (e - 1 + 1)%Z with e in H by ring. lra.
Qed.

Lemma Qeq_bool_false (x y : Q) : ~ x == y -> Qeq_bool x y = false.
Proof.
  intros H. destruct (Qeq_bool x y) eqn:E; [|reflexivity].
  apply Qeq_bool_iff in E. contradiction.
Qed.

Lemma round_float_error (x : Q) (E : Z) :
  ~ x == 0 -> (ilog2 (Qabs x) - 52 <= E)%Z -> (-1074 <= E)%Z ->
  x - pow2 (E - 1) <= round_float x /\ round_float x <= x + pow2 (E - 1).
Proof.
  intros Hx Hk HE. unfold round_float. rewrite (Qeq_bool_false _ _ Hx).
  set (e := Z.max (ilog2 (Qabs x) - 52) (-1074)).
  assert (e <= E)%Z as He by lia.
  pose proof (pow2_le (e - 1) (E - 1) ltac:(lia)) as Hp.
  rewrite (pow2_half e) in Hp.
  pose proof (pow2_pos e) as Hpos.
  pose proof (round_half_even_bounds (x / pow2 e)) as [B1 B2].
  set (R := inject_Z (round_half_even (x / pow2 e))) in *.
  assert (x / pow2 e * pow2 e == x) as Hy by (field; lra).
  set (y := x / pow2 e) in *. set (p := pow2 e) in *.
  set (P := pow2 (E - 1)) in *.
  split; nra.
Qed.

Lemma round_float_exact (x : Q) (z : Z) :
  x == inject_Z z -> ~ x == 0 -> (ilog2 (Qabs x) <= 52)%Z -> round_float x == x.
Proof.
  intros Hz Hx Hk. unfold round_float. rewrite (Qeq_bool_false _ _ Hx).
  set (e := Z.max (ilog2 (Qabs x) - 52) (-1074)).
  assert (e <= 0)%Z as He by lia.
  pose proof (pow2_sub 0 e) as Hs. change (pow2 0) with 1 in Hs.
  replace (0 - e)%Z with (- e)%Z in Hs by ring.
  rewrite <- (pow2_Z (- e)) in Hs by lia.
  pose proof (pow2_pos e) as Hpos.
  assert (x / pow2 e == inject_Z (z * 2 ^ (- e))) as Hy.
  { rewrite inject_Z_mult, Hz. set (w := inject_Z (2 ^ (- e))) in *.
    apply (Qmult_inj_r _ _ (pow2 e)); [lra|].
    transitivity (inject_Z z); [field; lra|].
    rewrite <- Qmult_assoc, Hs. ring. }
  rewrite (round_half_even_unique (x / pow2 e) (z * 2 ^ (- e))) by (rewrite Hy; lra).
  rewrite inject_Z_mult, Hz.
  rewrite <- Qmult_assoc, Hs. ring.
Qed.

Lemma trunc_unique (t : Q) (q : Z) :
  0 <= t -> inject_Z q <= t -> t < inject_Z q + 1 -> trunc t = q.
Proof.
  intros H0 H1 H2. unfold trunc.
  apply Qle_bool_iff in H0. rewrite H0. apply Qfloor_unique; assumption.
Qed.

End FloatFacts.

(** The model and the machine agree on the operations of the codec, here
    at the inputs used below: the two true divisions and the product. *)
Example round_float_agrees_with_binary64 :
  let of_int := Binary64.of_int in
  let t := PyFloat.round_float (2158963200002000 # 1000000) in
  Binary64.same_value (PrimFloat.div (of_int 2158963200002000%Z) (of_int 1000000%Z)) t = true /\
  Binary64.same_value
    (PrimFloat.mul (PrimFloat.div (of_int 2158963200002000%Z) (of_int 1000000%Z))
       (of_int 1000%Z))
    (PyFloat.mul t 1000) = true /\
  Binary64.same_value (PrimFloat.div (of_int 1462015105796%Z) (of_int 1000%Z))
    (PyFloat.round_float (1462015105796 # 1000)) = true /\
  Binary64.same_value
    (PrimFloat.mul
       (PrimFloat.sub (PrimFloat.div (of_int 1462015105796%Z) (of_int 1000%Z))
          (of_int 1462015105%Z))
       (of_int 1000000%Z))
    (PyFloat.mul (PyFloat.round_float (1462015105796 # 1000) - 1462015105) 1000000) = true.
Proof. repeat split; vm_compute; reflexivity. Qed.

(** ** The snowflake codec *)

Section UtilsFacts.

Import Py PyFloat Utils.
Local Open Scope Q_scope.

Lemma inject_Z_bounds (r lo hi : Z) :
  (lo <= r <= hi)%Z -> inject_Z lo <= inject_Z r /\ inject_Z r <= inject_Z hi.
Proof. intros [H1 H2]. split; rewrite <- Zle_Qle; assumption. Qed.

(** The float of the seconds of a snowflake's millisecond count is within
    [2^-21] of the exact quotient, and is the quotient when that is whole. *)
Lemma truediv_ms (ms : Z) :
  (FLUXER_EPOCH <= ms < FLUXER_EPOCH + 2 ^ 42)%Z ->
  exists t, truediv ms 1000 = Ok t /\
    inject_Z ms / 1000 - pow2 (-21) <= t /\ t <= inject_Z ms / 1000 + pow2 (-21) /\
    ((ms mod 1000 = 0)%Z -> t == inject_Z (ms / 1000)).
Proof.
  intros Hms. unfold FLUXER_EPOCH in Hms. unfold truediv.
  change (1000 =? 0)%Z with false. cbv iota.
  change (inject_Z 1000) with 1000.
  set (x := inject_Z ms / 1000).
  pose proof (inject_Z_bounds ms 1420070400000 5818116911103 ltac:(lia)) as [Hlo Hhi].
  assert (1420070400 <= x /\ x < 5818116912) as [Hx1 Hx2].
  { unfold x. change (inject_Z 1420070400000) with 1420070400000 in Hlo.
    change (inject_Z 5818116911103) with 5818116911103 in Hhi.
    split; [apply Qle_shift_div_l | apply Qlt_shift_div_r]; lra. }
  assert (pow2 33 == 8589934592) as H33 by reflexivity.
  assert (~ x == 0) as Hnz by lra.
  pose proof (Qabs_pos x ltac:(lra)) as Habs.
  assert (ilog2 (Qabs x) <= 32)%Z as Hk.
  { apply ilog2_upper; [lra|]. change (32 + 1)%Z with 33%Z. lra. }
  destruct (round_float_error x (-20) Hnz ltac:(lia) ltac:(lia)) as [E1 E2].
  change (-20 - 1)%Z with (-21)%Z in E1, E2.
  assert (pow2 (-21) == 1 # 2097152) as H21 by reflexivity.
  assert (overflows (round_float x) = false) as Hov.
  { unfold overflows. destruct (Qle_bool _ _) eqn:E; [|reflexivity].
    apply Qle_bool_iff in E.
    pose proof (pow2_le 34 1024 ltac:(lia)) as Hp.
    assert (pow2 34 == 17179869184) as H34 by reflexivity.
    pose proof (Qabs_pos (round_float x) ltac:(lra)) as Habs'. lra. }
  rewrite Hov. exists (round_float x). repeat split; [assumption..|].
  intros Hmod.
  assert (x == inject_Z (ms / 1000)) as Hq.
  { unfold x. pose proof (Z.div_mod ms 1000 ltac:(lia)) as Hdm.
    rewrite Hmod, Z.add_0_r in Hdm. rewrite Hdm at 1.
    rewrite inject_Z_mult. change (inject_Z 1000) with 1000. field. }
  rewrite <- Hq. apply (round_float_exact x (ms / 1000) Hq Hnz). lia.
Qed.

(** Within the same range [fromtimestamp] recovers the millisecond count
    exactly: the rounding error of the division is less than half a
    microsecond. *)
Lemma fromtimestamp_ms (ms : Z) :
  (FLUXER_EPOCH <= ms < FLUXER_EPOCH + 2 ^ 42)%Z ->
  (truediv ms 1000 ≫= fromtimestamp) = Ok (ms * 1000)%Z.
Proof.
  intros Hms. destruct (truediv_ms ms Hms) as (t & -> & Ht1 & Ht2 & Hex).
  unfold FLUXER_EPOCH in Hms. cbn [mbind result_bind].
  assert (pow2 (-21) == 1 # 2097152) as H21 by reflexivity.
  set (q := (ms / 1000)%Z) in *. set (r := (ms mod 1000)%Z) in *.
  pose proof (Z.div_mod ms 1000 ltac:(lia)) as Hdm. fold q r in Hdm.
  pose proof (Z.mod_pos_bound ms 1000 ltac:(lia)) as Hr. fold r in Hr.
  assert (inject_Z ms == 1000 * inject_Z q + inject_Z r) as Hms'.
  { rewrite Hdm at 1. rewrite inject_Z_plus, inject_Z_mult. reflexivity. }
  assert (inject_Z ms / 1000 == inject_Z q + (1 # 1000) * inject_Z r) as Hx
    by (rewrite Hms'; field).
  set (x := inject_Z ms / 1000) in *.
  pose proof (inject_Z_bounds q 1420070400 5818116911 ltac:(lia)) as [Hq1 Hq2].
  change (inject_Z 1420070400) with 1420070400 in Hq1.
  change (inject_Z 5818116911) with 5818116911 in Hq2.
  assert (r = 0 \/ 1 <= r <= 999)%Z as [Hr0 | Hr1] by lia.
  - (* a whole number of seconds *)
    specialize (Hex Hr0).
    unfold fromtimestamp.
    rewrite (trunc_unique t q ltac:(lra) ltac:(lra) ltac:(lra)).
    assert (mul (t - inject_Z q) (inject_Z 1000000) = 0) as ->.
    { unfold mul, round_float.
      assert (Qeq_bool ((t - inject_Z q) * inject_Z 1000000) 0 = true) as ->; [|reflexivity].
      apply Qeq_bool_iff. rewrite Hex. ring. }
    change (round_half_even 0) with 0%Z. cbv iota beta zeta. cbn [Z.leb Z.ltb Z.compare].
    replace (q * 1000000 + 0)%Z with (ms * 1000)%Z by lia.
    unfold datetime_min, datetime_max.
    rewrite andb_true_intro; [reflexivity|]. split; apply Z.leb_le; lia.
  - (* a fraction of [r] thousandths *)
    pose proof (inject_Z_bounds r 1 999 Hr1) as [Hr2 Hr3].
    change (inject_Z 1) with 1 in Hr2. change (inject_Z 999) with 999 in Hr3.
    unfold fromtimestamp.
    rewrite (trunc_unique t q ltac:(lra) ltac:(lra) ltac:(lra)).
    set (f := t - inject_Z q).
    assert ((1 # 1000) * inject_Z r - (1 # 2097152) <= f /\
            f <= (1 # 1000) * inject_Z r + (1 # 2097152))
      as [Hf1 Hf2] by (unfold f; lra).
    set (y := f * inject_Z 1000000).
    assert (1000 * inject_Z r - (1000000 # 2097152) <= y /\
            y <= 1000 * inject_Z r + (1000000 # 2097152)) as [Hy1 Hy2].
    { unfold y. change (inject_Z 1000000) with 1000000. lra. }
    assert (~ y == 0) as Hynz by lra.
    pose proof (Qabs_pos y ltac:(lra)) as Habs.
    assert (pow2 20 == 1048576) as H20 by reflexivity.
    assert (ilog2 (Qabs y) <= 19)%Z as Hk.
    { apply ilog2_upper; [lra|]. change (19 + 1)%Z with 20%Z. lra. }
    destruct (round_float_error y (-33) Hynz ltac:(lia) ltac:(lia)) as [E1 E2].
    change (-33 - 1)%Z with (-34)%Z in E1, E2.
    assert (pow2 (-34) == 1 # 17179869184) as H34 by reflexivity.
    unfold mul. fold y.
    assert (round_half_even (round_float y) = (1000 * r)%Z) as ->.
    { apply round_half_even_unique; rewrite inject_Z_mult;
        change (inject_Z 1000) with 1000; lra. }
    assert ((1000000 <=? 1000 * r)%Z = false) as -> by (apply Z.leb_gt; lia).
    assert ((1000 * r <? 0)%Z = false) as -> by (apply Z.ltb_ge; lia).
    replace (q * 1000000 + 1000 * r)%Z with (ms * 1000)%Z by lia.
    unfold datetime_min, datetime_max.
    rewrite andb_true_intro; [reflexivity|]. split; apply Z.leb_le; lia.
Qed.

Local Open Scope Z_scope.

Lemma shiftr_22_range (n : Z) : 0 <= n < 2 ^ 64 -> 0 <= Z.shiftr n 22 < 2 ^ 42.
Proof.
  intros Hn. rewrite Z.shiftr_div_pow2 by lia. split.
  - apply Z.div_pos; lia.
  - apply Z.div_lt_upper_bound; lia.
Qed.

(** On a 64-bit identifier the conversion returns, and what it returns is
    the instant of the millisecond count held in the upper 42 bits. *)
Lemma snowflake_to_datetime_exact (snowflake : Value) (n : Z) :
  int snowflake = Ok n -> 0 <= n < 2 ^ 64 ->
  snowflake_to_datetime snowflake = Ok ((Z.shiftr n 22 + FLUXER_EPOCH) * 1000).
Proof.
  intros Hv Hn. unfold snowflake_to_datetime. rewrite Hv. cbn [mbind result_bind].
  pose proof (shiftr_22_range n Hn) as Hs.
  apply (fromtimestamp_ms (Z.shiftr n 22 + FLUXER_EPOCH)). lia.
Qed.

(** C5. For identifiers [m <= n] (64-bit, as the codec's contract has
    them, given as [int] or as [str]), [snowflake_to_datetime] returns an
    instant for each, and the instant of [m] is not later than that of
    [n]. *)
Theorem snowflake_to_datetime_monotone (sm sn : Value) (m n : Z) :
  int sm = Ok m -> int sn = Ok n ->
  0 <= m -> m <= n -> n < 2 ^ 64 ->
  exists a b : datetime,
    snowflake_to_datetime sm = Ok a /\
    snowflake_to_datetime sn = Ok b /\
    a <= b.
Proof.
  intros Hm Hsn H0 Hmn Hn.
  exists ((Z.shiftr m 22 + FLUXER_EPOCH) * 1000), ((Z.shiftr n 22 + FLUXER_EPOCH) * 1000).
  rewrite (snowflake_to_datetime_exact sm m), (snowflake_to_datetime_exact sn n)
    by (assumption || lia).
  repeat split.
  assert (Z.shiftr m 22 <= Z.shiftr n 22); [|lia].
  rewrite !Z.shiftr_div_pow2 by lia. apply Z.div_le_mono; lia.
Qed.

Lemma snowflake_to_datetime_monotone_witness :
  exists a b : datetime,
    snowflake_to_datetime (VInt 175928847299117063) = Ok a /\
    snowflake_to_datetime (VStr "175928847303311367") = Ok b /\
    a <= b.
Proof.
  apply (snowflake_to_datetime_monotone (VInt 175928847299117063)
           (VStr "175928847303311367") 175928847299117063 175928847303311367);
    [reflexivity | vm_compute; reflexivity | lia..].
Defined.

(** The identifier of the specification's example is an instant in 2016:
    2016-04-30T11:18:25.796Z, and one millisecond later for the identifier
    that is [2^22] larger. *)
Example snowflake_2016 :
  snowflake_to_datetime (VInt 175928847299117063) = Ok 1462015105796000 /\
  snowflake_to_datetime (VStr "175928847303311367") = Ok 1462015105797000.
Proof. split; vm_compute; reflexivity. Qed.

(** The other direction is exact up to 2^31 seconds: before
    2038-01-19T03:14:08Z the float product [dt.timestamp() * 1000] of an
    instant of whole milliseconds is the millisecond count itself. *)
Lemma timestamp_ms_before_2038 (ms : Z) :
  FLUXER_EPOCH <= ms < 2 ^ 31 * 1000 ->
  exists t, timestamp (ms * 1000) = Ok t /\
    PyFloat.trunc (PyFloat.mul t (inject_Z 1000)) = ms.
Proof.
  intros Hms. unfold FLUXER_EPOCH in Hms. unfold timestamp, truediv.
  change (1000000 =? 0) with false. cbv iota.
  change (inject_Z 1000000) with 1000000%Q. change (inject_Z 1000) with 1000%Q.
  set (x := (inject_Z (ms * 1000) / 1000000)%Q).
  pose proof (inject_Z_bounds ms 1420070400000 2147483647999 ltac:(lia)) as [Hlo Hhi].
  change (inject_Z 1420070400000) with 1420070400000%Q in Hlo.
  change (inject_Z 2147483647999) with 2147483647999%Q in Hhi.
  assert (x * 1000 == inject_Z ms)%Q as Hx.
  { unfold x. rewrite inject_Z_mult. change (inject_Z 1000) with 1000%Q. field. }
  assert (pow2 31 == 2147483648)%Q as H31 by reflexivity.
  assert (~ x == 0)%Q as Hnz by lra.
  pose proof (Qabs_pos x ltac:(lra)) as Habs.
  assert (ilog2 (Qabs x) <= 30) as Hk.
  { apply ilog2_upper; [lra|]. change (30 + 1) with 31. lra. }
  destruct (round_float_error x (-22) Hnz ltac:(lia) ltac:(lia)) as [E1 E2].
  change (-22 - 1) with (-23) in E1, E2.
  assert (pow2 (-23) == 1 # 8388608)%Q as H23 by reflexivity.
  set (t := round_float x) in *.
  assert (overflows t = false) as ->.
  { unfold overflows. destruct (Qle_bool _ _) eqn:E; [|reflexivity].
    apply Qle_bool_iff in E.
    pose proof (pow2_le 32 1024 ltac:(lia)) as Hp.
    assert (pow2 32 == 4294967296)%Q as H32 by reflexivity.
    pose proof (Qabs_pos t ltac:(lra)) as Habs'. lra. }
  exists t. split; [reflexivity|].
  (* the product is within [1000 * 2^-23] of [ms], less than half a unit
     in the last place of its binade *)
  set (y := (t * 1000)%Q).
  assert (inject_Z ms - (1000 # 8388608) <= y /\ y <= inject_Z ms + (1000 # 8388608))%Q
    as [Hy1 Hy2] by (unfold y; lra).
  assert (pow2 40 == 1099511627776)%Q as H40 by reflexivity.
  assert (pow2 41 == 2199023255552)%Q as H41 by reflexivity.
  assert (~ y == 0)%Q as Hynz by lra.
  pose proof (Qabs_pos y ltac:(lra)) as Habsy.
  assert (ilog2 (Qabs y) = 40) as Hky.
  { apply Z.le_antisymm.
    - apply ilog2_upper; [lra|]. change (40 + 1) with 41. lra.
    - apply ilog2_lower; lra. }
  unfold mul. fold y. unfold round_float.
  rewrite (Qeq_bool_false _ _ Hynz), Hky. change (Z.max (40 - 52) (-1074)) with (-12).
  assert (pow2 (-12) == 1 # 4096)%Q as H12 by reflexivity.
  assert (round_half_even (y / pow2 (-12)) = 4096 * ms) as ->.
  { assert (y / pow2 (-12) == 4096 * y)%Q as Hw by (rewrite H12; field).
    set (w := (y / pow2 (-12))%Q) in *.
    apply round_half_even_unique; rewrite inject_Z_mult;
      change (inject_Z 4096) with 4096%Q; lra. }
  assert (inject_Z (4096 * ms) * pow2 (-12) == inject_Z ms)%Q as Hr.
  { rewrite inject_Z_mult, H12. change (inject_Z 4096) with 4096%Q. field. }
  apply trunc_unique; rewrite Hr; lra.
Qed.

Lemma roundtrip_before_2038 (ms : Z) :
  FLUXER_EPOCH <= ms < 2 ^ 31 * 1000 ->
  datetime_to_snowflake (ms * 1000) = Ok (Z.shiftl (ms - FLUXER_EPOCH) 22) /\
  snowflake_to_datetime (VInt (Z.shiftl (ms - FLUXER_EPOCH) 22)) = Ok (ms * 1000).
Proof.
  intros Hms. destruct (timestamp_ms_before_2038 ms Hms) as (t & Ht & Htr).
  unfold FLUXER_EPOCH in Hms. split.
  - unfold datetime_to_snowflake. rewrite Ht. cbn [mbind result_bind].
    rewrite Htr. reflexivity.
  - rewrite (snowflake_to_datetime_exact (VInt (Z.shiftl (ms - FLUXER_EPOCH) 22)) _ eq_refl).
    + rewrite Z.shiftr_shiftl_l, Z.shiftl_0_r by lia. f_equal. lia.
    + unfold FLUXER_EPOCH. rewrite Z.shiftl_mul_pow2 by lia. lia.
Qed.

(** C6. The instant 2038-06-01T00:00:00.002Z has no sub-millisecond part
    and its identifier fits 63 bits, yet the round trip returns
    2038-06-01T00:00:00.001Z: [dt.timestamp() * 1000] is the float
    2158963200001.9998, which [int] truncates. *)
Theorem roundtrip_loses_a_millisecond :
  let t : datetime := 2158963200002000 in
  t mod 1000 = 0 /\
  datetime_to_snowflake t = Ok 3099141026615394304 /\
  0 <= 3099141026615394304 < 2 ^ 63 /\
  snowflake_to_datetime (VInt 3099141026615394304) = Ok (t - 1000) /\
  (datetime_to_snowflake t ≫= fun n => snowflake_to_datetime (VInt n)) <> Ok t.
Proof.
  cbv zeta. split; [reflexivity|]. split; [vm_compute; reflexivity|].
  split; [lia|]. split; [vm_compute; reflexivity|].
  vm_compute. discriminate.
Qed.

End UtilsFacts.

(** ** Hydration and bound operations *)

Section ModelsFacts.

Import Py Models.
Context `{Collaborators}.
Local Open Scope Z_scope.

(** C2. On an entity whose [_http] is [None] every bound operation raises
    the [RuntimeError] that names the missing binding, before any attribute
    of the absent client is looked up (that would be an [AttributeError]);
    the operations of a [Reaction] do the same when its [_message] is
    [None], whatever its [_http]. *)
Theorem unbound_operations_raise
    (c : Channel) (m : Message) (r r' : Reaction)
    (content files message_reference message_id : Value)
    (embed : option Embed) (embeds : option (list Embed))
    (kwargs : gmap string Value) (user : User + Value) :
  channel_http c = None ->
  message_http m = None ->
  reaction_http r = None ->
  reaction_message r' = None ->
  Channel_send c content embed embeds files message_reference
    = Raise (RuntimeError "Channel is not bound to an HTTP client") /\
  Channel_fetch_message c message_id
    = Raise (RuntimeError "Channel is not bound to an HTTP client") /\
  Message_reply m content kwargs
    = Raise (RuntimeError "Message is not bound to an HTTP client") /\
  Message_edit m content kwargs
    = Raise (RuntimeError "Message is not bound to an HTTP client") /\
  Message_delete m
    = Raise (RuntimeError "Message is not bound to an HTTP client") /\
  Reaction_remove r user
    = Raise (RuntimeError "Cannot remove reaction without HTTPClient and Message") /\
  Reaction_clear r
    = Raise (RuntimeError "Cannot clear reaction without HTTPClient and Message") /\
  Reaction_remove r' user
    = Raise (RuntimeError "Cannot remove reaction without HTTPClient and Message") /\
  Reaction_clear r'
    = Raise (RuntimeError "Cannot clear reaction without HTTPClient and Message") /\
  Unbound (RuntimeError "Channel is not bound to an HTTP client").
Proof.
  intros Hc Hm Hr Hr'.
  unfold Channel_send, Channel_fetch_message, Message_reply, Message_edit,
    Message_delete, Reaction_remove, Reaction_clear.
  rewrite Hc, Hm, Hr, Hr'. cbn [not_http not_message orb].
  rewrite !bool_decide_eq_true_2 by reflexivity.
  rewrite orb_true_r. repeat split.
Qed.

Lemma comprehension_Forall2 {A B} (f : A -> result B) (P : A -> B -> Prop) (l : list A) :
  Forall (fun x => exists y, f x = Ok y /\ P x y) l ->
  exists ys, comprehension f l = Ok ys /\ Forall2 P l ys.
Proof.
  induction 1 as [|x l (y & Hy & HP) _ (ys & Hys & HF)]; cbn [comprehension].
  - exists []. split; [reflexivity | constructor].
  - exists (y :: ys). rewrite Hy. cbn [mbind result_bind]. rewrite Hys.
    split; [reflexivity | constructor; assumption].
Qed.

Lemma getitem_Some (data : gmap string Value) key v :
  data !! key = Some v -> getitem data key = Ok v.
Proof. intros E. unfold getitem. rewrite E. reflexivity. Qed.

Lemma optional_id_falsy (data : gmap string Value) key :
  truthy (get data key VNone) = false -> optional_id data key = Ok None.
Proof. intros E. unfold optional_id. rewrite E. reflexivity. Qed.

Lemma optional_id_truthy (data : gmap string Value) key n :
  truthy (get data key VNone) = true -> int (get data key VNone) = Ok n ->
  optional_id data key = Ok (Some n).
Proof.
  intros E Hn. unfold optional_id, getitem. rewrite E.
  unfold get in E, Hn. destruct (data !! key) as [v|]; [|discriminate E].
  cbn in Hn. cbn [mbind result_bind]. rewrite Hn. reflexivity.
Qed.


Lemma comprehension_Ok_Forall2 {A B} (f : A -> result B) (l : list A) (ys : list B) :
  comprehension f l = Ok ys -> Forall2 (fun x y => f x = Ok y) l ys.
Proof.
  revert ys. induction l as [|x l IH]; intros ys; cbn [comprehension].
  - intros [= <-]. constructor.
  - destruct (f x) as [y|] eqn:Hy; [|discriminate]. cbn [mbind result_bind].
    destruct (comprehension f l) as [ys'|]; [|discriminate]. cbn [mbind result_bind].
    intros [= <-]. constructor; [exact Hy | apply IH; reflexivity].
Qed.

Lemma Emoji_from_data_guild_id (d : gmap string Value) http gid e :
  Emoji_from_data d http (Some gid) = Ok e -> Emoji_guild_id e = Some gid.
Proof.
  unfold Emoji_from_data.
  destruct (getitem d "id") as [v|]; [|discriminate]. cbn [mbind result_bind].
  destruct (int v); [|discriminate]. cbn [mbind result_bind].
  intros [= <-]. reflexivity.
Qed.

(** C8. When the transport returns a list of emoji payloads,
    [fetch_emojis] hydrates each of them, in order, with the guild's own id
    handed in, and every emoji it returns has that id as [guild_id];
    nothing is asked of the payload's own [guild_id], which may be missing.
    It returns one emoji per payload when the identifiers of the payloads
    parse. *)
Theorem fetch_emojis_injects_guild_id
    (g : Guild) (client : HTTPClient) (payloads : list (gmap string Value)) :
  guild_http g = Some client ->
  http_truthy client = true ->
  get_guild_emojis client (guild_id_ g) = Ok payloads ->
  let hydrate := fun d => Emoji_from_data d (Some client) (Some (guild_id_ g)) in
  Guild_fetch_emojis g = comprehension hydrate payloads /\
  (forall es, Guild_fetch_emojis g = Ok es ->
     Forall2 (fun d e => hydrate d = Ok e /\ Emoji_guild_id e = Some (guild_id_ g))
       payloads es) /\
  (Forall (fun d => exists v n, d !! "id" = Some v /\ int v = Ok n) payloads ->
   exists es, Guild_fetch_emojis g = Ok es).
Proof.
  intros Hh Ht Hr hydrate.
  assert (Guild_fetch_emojis g = comprehension hydrate payloads) as Heq.
  { unfold Guild_fetch_emojis. rewrite Hh. cbn [not_http deref]. rewrite Ht. cbn [negb].
    rewrite Hr. reflexivity. }
  split; [exact Heq|]. rewrite Heq. split.
  - intros es Hes. apply comprehension_Ok_Forall2 in Hes.
    eapply Forall2_impl; [exact Hes|]. intros d e Hd. split; [exact Hd|].
    eapply Emoji_from_data_guild_id. exact Hd.
  - intros Hids.
    destruct (comprehension_Forall2 hydrate (fun _ _ => True) payloads) as (es & Hes & _);
      [|exists es; exact Hes].
    eapply Forall_impl; [exact Hids|]. intros d (v & n & Hv & Hn).
    unfold hydrate, Emoji_from_data. rewrite (getitem_Some _ _ _ Hv). cbn [mbind result_bind].
    rewrite Hn. cbn [mbind result_bind]. eexists. split; [reflexivity | exact I].
Qed.

Lemma getitem_delete_ne (data : gmap string Value) k k' :
  k <> k' -> getitem (delete k data) k' = getitem data k'.
Proof. intros Hne. unfold getitem. rewrite lookup_delete_ne by assumption. reflexivity. Qed.

Lemma get_delete_ne (data : gmap string Value) k k' dflt :
  k <> k' -> get (delete k data) k' dflt = get data k' dflt.
Proof. intros Hne. unfold get. rewrite lookup_delete_ne by assumption. reflexivity. Qed.

Lemma optional_id_delete_ne (data : gmap string Value) k k' :
  k <> k' -> optional_id (delete k data) k' = optional_id data k'.
Proof.
  intros Hne. unfold optional_id.
  rewrite get_delete_ne, getitem_delete_ne by assumption. reflexivity.
Qed.

Lemma optional_id_delete (data : gmap string Value) k :
  optional_id (delete k data) k = Ok None.
Proof. apply optional_id_falsy. unfold get. rewrite lookup_delete_eq. reflexivity. Qed.

Lemma optional_id_present_falsy (data : gmap string Value) k v :
  data !! k = Some v -> truthy v = false -> optional_id data k = Ok None.
Proof. intros E Hv. apply optional_id_falsy. unfold get. rewrite E. exact Hv. Qed.

Lemma PartialEmoji_from_data_falsy (data : gmap string Value) :
  truthy (get data "id" VNone) = false ->
  PartialEmoji_from_data data
    = Ok (mkPartialEmoji (get data "name" VNone) None (get data "animated" (VBool false))).
Proof. intros E. unfold PartialEmoji_from_data. cbv zeta. rewrite E. reflexivity. Qed.

Ltac other_keys :=
  rewrite ?getitem_delete_ne, ?get_delete_ne, ?optional_id_delete_ne by discriminate.

(** C9. A present but falsy value (such as [0] or the empty string) under
    an optional identifier key hydrates exactly as the payload without
    that key does, and the field of the entity is [None]. *)
Theorem falsy_optional_id_is_None
    (dc dp dg dm de : gmap string Value) (http : option HTTPClient) (v : Value) :
  truthy v = false ->
  dc !! "guild_id" = Some v ->
  dp !! "parent_id" = Some v ->
  dg !! "owner_id" = Some v ->
  dm !! "guild_id" = Some v ->
  de !! "id" = Some v ->
  (Channel_from_data dc http = Channel_from_data (delete "guild_id" dc) http /\
   forall c, Channel_from_data dc http = Ok c -> channel_guild_id c = None) /\
  (Channel_from_data dp http = Channel_from_data (delete "parent_id" dp) http /\
   forall c, Channel_from_data dp http = Ok c -> channel_parent_id c = None) /\
  (Guild_from_data dg http = Guild_from_data (delete "owner_id" dg) http /\
   forall g, Guild_from_data dg http = Ok g -> guild_owner_id g = None) /\
  (Message_from_data dm http = Message_from_data (delete "guild_id" dm) http /\
   forall m, Message_from_data dm http = Ok m -> message_guild_id m = None) /\
  (PartialEmoji_from_data de = PartialEmoji_from_data (delete "id" de) /\
   exists e, PartialEmoji_from_data de = Ok e /\ emoji_id e = None).
Proof.
  intros Hv Hc Hp Hg Hm He.
  pose proof (optional_id_present_falsy _ _ _ Hc Hv) as Hc'.
  pose proof (optional_id_present_falsy _ _ _ Hp Hv) as Hp'.
  pose proof (optional_id_present_falsy _ _ _ Hg Hv) as Hg'.
  pose proof (optional_id_present_falsy _ _ _ Hm Hv) as Hm'.
  repeat apply conj.
  - unfold Channel_from_data. rewrite optional_id_delete, Hc'. other_keys. reflexivity.
  - unfold Channel_from_data. rewrite Hc'. intros c Hok.
    destruct (getitem dc "id") as [x|]; [|discriminate Hok]. cbn [mbind result_bind] in Hok.
    destruct (int x); [|discriminate Hok]. cbn [mbind result_bind] in Hok.
    destruct (getitem dc "type"); [|discriminate Hok]. cbn [mbind result_bind] in Hok.
    destruct (optional_id dc "parent_id"); [|discriminate Hok]. cbn [mbind result_bind] in Hok.
    injection Hok as <-. reflexivity.
  - unfold Channel_from_data. rewrite optional_id_delete, Hp'. other_keys. reflexivity.
  - unfold Channel_from_data. rewrite Hp'. intros c Hok.
    destruct (getitem dp "id") as [x|]; [|discriminate Hok]. cbn [mbind result_bind] in Hok.
    destruct (int x); [|discriminate Hok]. cbn [mbind result_bind] in Hok.
    destruct (getitem dp "type"); [|discriminate Hok]. cbn [mbind result_bind] in Hok.
    destruct (optional_id dp "guild_id"); [|discriminate Hok]. cbn [mbind result_bind] in Hok.
    injection Hok as <-. reflexivity.
  - unfold Guild_from_data. rewrite optional_id_delete, Hg'. other_keys. reflexivity.
  - unfold Guild_from_data. rewrite Hg'. intros g Hok.
    destruct (getitem dg "id") as [x|]; [|discriminate Hok]. cbn [mbind result_bind] in Hok.
    destruct (int x); [|discriminate Hok]. cbn [mbind result_bind] in Hok.
    injection Hok as <-. reflexivity.
  - unfold Message_from_data. rewrite optional_id_delete, Hm'. other_keys. reflexivity.
  - unfold Message_from_data. rewrite Hm'. intros m Hok.
    destruct (getitem dm "author") as [x|]; [|discriminate Hok]. cbn [mbind result_bind] in Hok.
    destruct (User_from_data x http); [|discriminate Hok]. cbn [mbind result_bind] in Hok.
    destruct (iterate _); [|discriminate Hok]. cbn [mbind result_bind] in Hok.
    destruct (comprehension _ _); [|discriminate Hok]. cbn [mbind result_bind] in Hok.
    destruct (getitem dm "id") as [y|]; [|discriminate Hok]. cbn [mbind result_bind] in Hok.
    destruct (int y); [|discriminate Hok]. cbn [mbind result_bind] in Hok.
    destruct (getitem dm "channel_id") as [z|]; [|discriminate Hok]. cbn [mbind result_bind] in Hok.
    destruct (int z); [|discriminate Hok]. cbn [mbind result_bind] in Hok.
    destruct (getitem dm "timestamp"); [|discriminate Hok]. cbn [mbind result_bind] in Hok.
    injection Hok as <-. reflexivity.
  - rewrite !PartialEmoji_from_data_falsy.
    + other_keys. reflexivity.
    + unfold get. rewrite lookup_delete_eq. reflexivity.
    + unfold get. rewrite He. exact Hv.
  - rewrite PartialEmoji_from_data_falsy by (unfold get; rewrite He; exact Hv).
    eexists. split; reflexivity.
Qed.

End ModelsFacts.

(** ** Hydration and bound operations on concrete payloads *)

Section ModelsExamples.

Import Py Models Samples.
#[local] Existing Instance fixture.
Local Open Scope Z_scope.

Lemma unbound_operations_raise_witness :
  let r := mkReaction thumbs_up (VInt 1) (VBool false) (Some unbound_message) None in
  let r' := mkReaction thumbs_up (VInt 1) (VBool false) None (Some stub_client) in
  Channel_send unbound_channel (VStr "hi") None None VNone VNone
    = Raise (RuntimeError "Channel is not bound to an HTTP client") /\
  Channel_fetch_message unbound_channel (VInt 42)
    = Raise (RuntimeError "Channel is not bound to an HTTP client") /\
  Message_reply unbound_message (VStr "hi") ∅
    = Raise (RuntimeError "Message is not bound to an HTTP client") /\
  Message_edit unbound_message (VStr "hi") ∅
    = Raise (RuntimeError "Message is not bound to an HTTP client") /\
  Message_delete unbound_message
    = Raise (RuntimeError "Message is not bound to an HTTP client") /\
  Reaction_remove r (inr (VInt 7))
    = Raise (RuntimeError "Cannot remove reaction without HTTPClient and Message") /\
  Reaction_clear r
    = Raise (RuntimeError "Cannot clear reaction without HTTPClient and Message") /\
  Reaction_remove r' (inr (VInt 7))
    = Raise (RuntimeError "Cannot remove reaction without HTTPClient and Message") /\
  Reaction_clear r'
    = Raise (RuntimeError "Cannot clear reaction without HTTPClient and Message") /\
  Unbound (RuntimeError "Channel is not bound to an HTTP client").
Proof.
  intros r r'.
  apply (@unbound_operations_raise fixture unbound_channel unbound_message r r'); reflexivity.
Defined.



Lemma fetch_emojis_injects_guild_id_witness :
  let g := mkGuild 1234 (VStr "home") VNone None VNone (VBool false) (Some stub_client) in
  exists es, Guild_fetch_emojis g = Ok es /\
    Forall2 (fun d e => Emoji_from_data d (Some stub_client) (Some 1234) = Ok e /\
                        Emoji_guild_id e = Some 1234) stub_emojis es.
Proof.
  intros g.
  destruct (@fetch_emojis_injects_guild_id g stub_client stub_emojis
              eq_refl eq_refl eq_refl) as (_ & Hall & Hex).
  destruct Hex as [es Hes].
  - repeat constructor.
    + exists (VStr "5"), 5. split; vm_compute; reflexivity.
    + exists (VInt 6), 6. split; vm_compute; reflexivity.
  - exists es. split; [exact Hes | exact (Hall es Hes)].
Defined.

Example fetch_emojis_stub :
  Guild_fetch_emojis
    (mkGuild 1234 (VStr "home") VNone None VNone (VBool false) (Some stub_client))
  = Ok [ mkEmoji 5 (VStr "wave") (Some 1234) (Some stub_client);
         mkEmoji 6 (VStr "nod") (Some 1234) (Some stub_client) ].
Proof. vm_compute. reflexivity. Qed.

Lemma falsy_optional_id_is_None_witness :
  let dc : gmap string Value := {[ "id" := VInt 5; "type" := VInt 0; "guild_id" := VInt 0 ]} in
  let dp : gmap string Value := {[ "id" := VInt 5; "type" := VInt 0; "parent_id" := VInt 0 ]} in
  let dg : gmap string Value := {[ "id" := VInt 9; "owner_id" := VInt 0 ]} in
  let dm : gmap string Value := <["guild_id" := VInt 0]> stub_message in
  let de : gmap string Value := {[ "name" := VStr "+1"; "id" := VInt 0 ]} in
  (Channel_from_data dc None = Channel_from_data (delete "guild_id" dc) None /\
   forall c, Channel_from_data dc None = Ok c -> channel_guild_id c = None) /\
  (Channel_from_data dp None = Channel_from_data (delete "parent_id" dp) None /\
   forall c, Channel_from_data dp None = Ok c -> channel_parent_id c = None) /\
  (Guild_from_data dg None = Guild_from_data (delete "owner_id" dg) None /\
   forall g, Guild_from_data dg None = Ok g -> guild_owner_id g = None) /\
  (Message_from_data dm None = Message_from_data (delete "guild_id" dm) None /\
   forall m, Message_from_data dm None = Ok m -> message_guild_id m = None) /\
  (PartialEmoji_from_data de = PartialEmoji_from_data (delete "id" de) /\
   exists e, PartialEmoji_from_data de = Ok e /\ emoji_id e = None).
Proof.
  intros dc dp dg dm de.
  apply (@falsy_optional_id_is_None fixture dc dp dg dm de None (VInt 0));
    vm_compute; reflexivity.
Defined.

(** The same payloads do hydrate, so the fields above are those of real
    entities. *)
Example zero_guild_id_hydrates :
  (channel_guild_id <$> Channel_from_data
     {[ "id" := VInt 5; "type" := VInt 0; "guild_id" := VInt 0 ]} None) = Ok None /\
  (message_guild_id <$> Message_from_data (<["guild_id" := VStr ""]> stub_message) None)
    = Ok None /\
  (guild_owner_id <$> Guild_from_data {[ "id" := VInt 9; "owner_id" := VInt 0 ]} None)
    = Ok None.
Proof. repeat split; vm_compute; reflexivity. Qed.

End ModelsExamples.

(** ** Handler discovery *)

Section CogFacts.

Import Cog.

Lemma register_command_cls name m s : cls (register_command name m s) = cls s.
Proof. unfold register_command. destruct (__cog_command__ m); reflexivity. Qed.

Lemma register_command_bot name m s : bot (register_command name m s) = bot s.
Proof. unfold register_command. destruct (__cog_command__ m); reflexivity. Qed.

Lemma register_listener_cls name m s : cls (register_listener name m s) = cls s.
Proof. unfold register_listener. destruct (__cog_listener__ m); reflexivity. Qed.

Lemma register_listener_bot name m s : bot (register_listener name m s) = bot s.
Proof. unfold register_listener. destruct (__cog_listener__ m); reflexivity. Qed.

Lemma register_listener_commands name m s :
  _commands (register_listener name m s) = _commands s.
Proof. unfold register_listener. destruct (__cog_listener__ m); reflexivity. Qed.

Lemma register_command_listeners name m s :
  _listeners (register_command name m s) = _listeners s.
Proof. unfold register_command. destruct (__cog_command__ m); reflexivity. Qed.

Lemma register_command_lookup name m s c :
  _commands (register_command name m s) !! c
  = if is_command_for c (name, m) then Some m else _commands s !! c.
Proof.
  unfold register_command, is_command_for. cbn [fst snd].
  destruct (__cog_command__ m); cbn [andb _commands]; [|reflexivity].
  case_bool_decide as E.
  - rewrite E. apply lookup_insert_eq.
  - apply lookup_insert_ne. exact E.
Qed.

Lemma register_listener_lookup name m s e :
  _listeners (register_listener name m s) !! e
  = if is_listener_for e (name, m)
    then Some (default [] (_listeners s !! e) ++ [m])
    else _listeners s !! e.
Proof.
  unfold register_listener, is_listener_for. cbn [fst snd].
  destruct (__cog_listener__ m); cbn [andb _listeners]; [|reflexivity].
  case_bool_decide as E.
  - subst e. rewrite lookup_insert_eq.
    destruct (_listeners s !! event_name name m) eqn:El; rewrite ?El; [reflexivity|].
    rewrite lookup_insert_eq. reflexivity.
  - rewrite lookup_insert_ne by exact E.
    destruct (_listeners s !! event_name name m); [reflexivity|].
    apply lookup_insert_ne. exact E.
Qed.

(** A turn of the loop leaves the class and the bot alone, so the same
    names resolve to the same objects throughout. *)
Lemma discover_step_cls s name : cls (discover_step s name) = cls s.
Proof.
  unfold discover_step. destruct (startswith_underscore name); [reflexivity|].
  destruct (getattr s name); [|reflexivity].
  rewrite register_listener_cls. apply register_command_cls.
Qed.

Lemma discover_step_bot s name : bot (discover_step s name) = bot s.
Proof.
  unfold discover_step. destruct (startswith_underscore name); [reflexivity|].
  destruct (getattr s name); [|reflexivity].
  rewrite register_listener_bot. apply register_command_bot.
Qed.

Lemma getattr_ext s s' name :
  cls s' = cls s -> bot s' = bot s -> getattr s' name = getattr s name.
Proof. intros Hc Hb. unfold getattr. rewrite Hc, Hb. reflexivity. Qed.

Lemma visit_ext s s' name :
  cls s' = cls s -> bot s' = bot s -> visit s' name = visit s name.
Proof. intros Hc Hb. unfold visit. rewrite (getattr_ext s s') by assumption. reflexivity. Qed.

Lemma dir_ext s s' : cls s' = cls s -> dir s' = dir s.
Proof. intros Hc. unfold dir, attribute_names. rewrite Hc. reflexivity. Qed.

Lemma discover_step_visit s name :
  discover_step s name
  = match visit s name with
    | Some d => register_listener d.1 d.2 (register_command d.1 d.2 s)
    | None => s
    end.
Proof.
  unfold discover_step, visit. destruct (startswith_underscore name); [reflexivity|].
  destruct (getattr s name); reflexivity.
Qed.

Lemma fold_discover_cls names s : cls (foldl discover_step s names) = cls s.
Proof.
  revert s. induction names as [|n names IH]; intros s; [reflexivity|].
  cbn [foldl]. rewrite IH. apply discover_step_cls.
Qed.

Lemma fold_discover_bot names s : bot (foldl discover_step s names) = bot s.
Proof.
  revert s. induction names as [|n names IH]; intros s; [reflexivity|].
  cbn [foldl]. rewrite IH. apply discover_step_bot.
Qed.

Lemma omap_visit_ext s s' (names : list string) :
  cls s' = cls s -> bot s' = bot s -> omap (visit s') names = omap (visit s) names.
Proof.
  intros Hc Hb. induction names as [|n names IH]; [reflexivity|].
  cbn [omap list_omap]. rewrite (visit_ext s s') by assumption. rewrite IH. reflexivity.
Qed.

(** The loop, read off the sequence it visits: a command name ends up
    bound to the last method that claims it, an event name to all the
    methods that claim it, appended in turn. *)
Lemma fold_discover_commands (names : list string) s c :
  _commands (foldl discover_step s names) !! c
  = match last (commands_named c (omap (visit s) names)) with
    | Some m => Some m
    | None => _commands s !! c
    end.
Proof.
  revert s. induction names as [|n names IH]; intros s; [reflexivity|].
  cbn [foldl]. rewrite IH.
  rewrite (omap_visit_ext s (discover_step s n))
    by (apply discover_step_cls || apply discover_step_bot).
  rewrite discover_step_visit. cbn [omap list_omap].
  destruct (visit s n) as [[n' m]|]; [|reflexivity].
  cbn [fst snd]. rewrite register_listener_commands, register_command_lookup.
  unfold commands_named. cbn [List.filter].
  destruct (is_command_for c (n', m)); [|reflexivity].
  cbn [fmap list_fmap snd]. fold (commands_named c (omap (visit s) names)).
  rewrite last_cons. destruct (last _); reflexivity.
Qed.

Lemma fold_discover_listeners (names : list string) s e :
  _listeners (foldl discover_step s names) !! e
  = match listeners_named e (omap (visit s) names) with
    | [] => _listeners s !! e
    | l => Some (default [] (_listeners s !! e) ++ l)
    end.
Proof.
  revert s. induction names as [|n names IH]; intros s; [reflexivity|].
  cbn [foldl]. rewrite IH.
  rewrite (omap_visit_ext s (discover_step s n))
    by (apply discover_step_cls || apply discover_step_bot).
  rewrite discover_step_visit. cbn [omap list_omap].
  destruct (visit s n) as [[n' m]|]; [|reflexivity].
  cbn [fst snd]. rewrite register_listener_lookup, register_command_listeners.
  unfold listeners_named. cbn [List.filter].
  destruct (is_listener_for e (n', m)); [|reflexivity].
  cbn [fmap list_fmap snd]. fold (listeners_named e (omap (visit s) names)).
  destruct (listeners_named e (omap (visit s) names)) as [|x l]; [reflexivity|].
  unfold default. cbn [from_option id]. rewrite <- app_assoc. reflexivity.
Qed.

Lemma init_cls body b : cls (__init__ body b) = body.
Proof. unfold __init__, _discover_handlers. apply fold_discover_cls. Qed.

Lemma init_bot body b : bot (__init__ body b) = b.
Proof. unfold __init__, _discover_handlers. apply fold_discover_bot. Qed.

Lemma init_discovered body b :
  discovered (__init__ body b) = omap (visit (mkCog body b ∅ ∅)) (dir (mkCog body b ∅ ∅)).
Proof.
  unfold discovered.
  rewrite (dir_ext (mkCog body b ∅ ∅)) by apply init_cls.
  apply omap_visit_ext; [apply init_cls | apply init_bot].
Qed.

Lemma init_commands_lookup body b c :
  _commands (__init__ body b) !! c = last (commands_named c (discovered (__init__ body b))).
Proof.
  rewrite init_discovered. unfold __init__, _discover_handlers.
  rewrite fold_discover_commands. cbn [_commands]. rewrite lookup_empty.
  destruct (last _); reflexivity.
Qed.

Lemma init_listeners_lookup body b e :
  _listeners (__init__ body b) !! e
  = match listeners_named e (discovered (__init__ body b)) with
    | [] => None
    | l => Some l
    end.
Proof.
  rewrite init_discovered. unfold __init__, _discover_handlers.
  rewrite fold_discover_listeners. cbn [_listeners]. rewrite lookup_empty.
  destruct (listeners_named _ _); reflexivity.
Qed.


(** [dir(self)] is sorted, and holds exactly the attribute names. *)
Lemma dir_sorted s : StronglySorted String.le (dir s).
Proof. unfold dir. apply StronglySorted_merge_sort; apply _. Qed.

Lemma elem_of_dir s name : name ∈ dir s <-> name ∈ attribute_names s.
Proof. unfold dir. rewrite merge_sort_Permutation. apply elem_of_elements. Qed.

Lemma getattr_in_dir s name m : getattr s name = Some m -> name ∈ dir s.
Proof.
  unfold getattr. intros Hg. apply elem_of_dir. unfold attribute_names.
  case_decide as E.
  - subst name. apply elem_of_union_l, elem_of_union_l. vm_compute. set_solver.
  - apply elem_of_union_l, elem_of_union_r, elem_of_dom. eexists. exact Hg.
Qed.

Lemma visit_Some s name m :
  startswith_underscore name = false -> getattr s name = Some m ->
  visit s name = Some (name, m).
Proof. intros Hp Hg. unfold visit. rewrite Hp, Hg. reflexivity. Qed.

Lemma visit_inv s name d :
  visit s name = Some d ->
  d.1 = name /\ startswith_underscore name = false /\ getattr s name = Some d.2.
Proof.
  unfold visit. destruct (startswith_underscore name); [discriminate|].
  destruct (getattr s name); [|discriminate].
  intros [= <-]. repeat split.
Qed.

Lemma elem_of_discovered s d :
  d ∈ discovered s ->
  startswith_underscore d.1 = false /\ getattr s d.1 = Some d.2.
Proof.
  unfold discovered. rewrite list_elem_of_omap. intros (name & _ & Hv).
  apply visit_inv in Hv as (<- & Hp & Hg). split; assumption.
Qed.

Lemma elem_of_commands_named c ds m :
  m ∈ commands_named c ds ->
  exists name, (name, m) ∈ ds /\ __cog_command__ m = true /\ cmd_name name m = c.
Proof.
  unfold commands_named. rewrite list_elem_of_fmap. intros ([name m'] & -> & Hin).
  apply list_elem_of_In, filter_In in Hin as [Hin Hf]. apply list_elem_of_In in Hin.
  unfold is_command_for in Hf. apply andb_prop in Hf as [Hc Hn].
  apply bool_decide_eq_true in Hn. exists name. repeat split; assumption.
Qed.

Lemma elem_of_listeners_named e ds m :
  m ∈ listeners_named e ds ->
  exists name, (name, m) ∈ ds /\ __cog_listener__ m = true /\ event_name name m = e.
Proof.
  unfold listeners_named. rewrite list_elem_of_fmap. intros ([name m'] & -> & Hin).
  apply list_elem_of_In, filter_In in Hin as [Hin Hf]. apply list_elem_of_In in Hin.
  unfold is_listener_for in Hf. apply andb_prop in Hf as [Hc Hn].
  apply bool_decide_eq_true in Hn. exists name. repeat split; assumption.
Qed.

Lemma commands_named_app c ds ds' :
  commands_named c (ds ++ ds') = commands_named c ds ++ commands_named c ds'.
Proof. unfold commands_named. rewrite List.filter_app. apply fmap_app. Qed.

Lemma listeners_named_app e ds ds' :
  listeners_named e (ds ++ ds') = listeners_named e ds ++ listeners_named e ds'.
Proof. unfold listeners_named. rewrite List.filter_app. apply fmap_app. Qed.

Lemma commands_named_cons c name m ds :
  __cog_command__ m = true -> cmd_name name m = c ->
  commands_named c ((name, m) :: ds) = m :: commands_named c ds.
Proof.
  intros Hc Hn. unfold commands_named, is_command_for. cbn [List.filter fst snd].
  rewrite Hc, bool_decide_eq_true_2 by exact Hn. reflexivity.
Qed.

Lemma listeners_named_cons e name m ds :
  __cog_listener__ m = true -> event_name name m = e ->
  listeners_named e ((name, m) :: ds) = m :: listeners_named e ds.
Proof.
  intros Hc Hn. unfold listeners_named, is_listener_for. cbn [List.filter fst snd].
  rewrite Hc, bool_decide_eq_true_2 by exact Hn. reflexivity.
Qed.

(** Every attribute of an instance is the bot or an entry of the class
    namespace. *)
Lemma getattr_cases (self : Cog) (P : string -> EventHandler -> Prop) name x :
  P "bot" (bot self) -> map_Forall P (class_namespace (cls self)) ->
  getattr self name = Some x -> P name x.
Proof.
  intros Hb Hns. unfold getattr. case_decide as E.
  - intros [= <-]. subst name. exact Hb.
  - intros Hl. exact (Hns name x Hl).
Qed.


Lemma sorted_split_after (a b : list string) n x :
  StronglySorted String.le (a ++ n :: b) -> x ∈ b -> String.le n x.
Proof.
  intros Hs Hx. apply StronglySorted_app_1_r in Hs.
  apply StronglySorted_inv in Hs as [_ Hall].
  rewrite Forall_forall in Hall. apply Hall, Hx.
Qed.


Lemma discovered_split_after body b name m :
  let self := __init__ body b in
  startswith_underscore name = false -> getattr self name = Some m ->
  exists a c, discovered self = a ++ (name, m) :: c /\
    forall d, d ∈ c -> String.le name d.1 /\ startswith_underscore d.1 = false /\
                       getattr self d.1 = Some d.2.
Proof.
  intros self Hp Hg.
  destruct (list_elem_of_split (dir self) name) as (a & c & Hd);
    [eapply getattr_in_dir; eassumption|].
  exists (omap (visit self) a), (omap (visit self) c). split.
  - unfold discovered. rewrite Hd, omap_app. cbn [omap list_omap].
    rewrite (visit_Some self name m) by assumption. reflexivity.
  - intros d Hin. apply list_elem_of_omap in Hin as (x & Hx & Hv).
    apply visit_inv in Hv as (<- & Hpx & Hgx). repeat split; [|assumption..].
    pose proof (dir_sorted self) as Hs. rewrite Hd in Hs.
    eapply sorted_split_after; eassumption.
Qed.




(** Whatever is registered was reached through a public attribute name. *)
Lemma registered_command_is_public body b k m :
  _commands (__init__ body b) !! k = Some m ->
  exists name, startswith_underscore name = false /\
    getattr (__init__ body b) name = Some m /\
    __cog_command__ m = true /\ cmd_name name m = k.
Proof.
  rewrite init_commands_lookup. intros Hk.
  apply last_Some_elem_of, elem_of_commands_named in Hk as (n & Hin & Hc & Hn).
  apply elem_of_discovered in Hin as [Hp Hg]. exists n. repeat split; assumption.
Qed.

Lemma registered_listener_is_public body b e l m :
  _listeners (__init__ body b) !! e = Some l -> m ∈ l ->
  exists name, startswith_underscore name = false /\
    getattr (__init__ body b) name = Some m /\
    __cog_listener__ m = true /\ event_name name m = e.
Proof.
  rewrite init_listeners_lookup. intros Hl Hm.
  assert (m ∈ listeners_named e (discovered (__init__ body b))) as Hin.
  { destruct (listeners_named e _); [discriminate Hl|]. injection Hl as <-. exact Hm. }
  apply elem_of_listeners_named in Hin as (n & Hin & Hc & Hn).
  apply elem_of_discovered in Hin as [Hp Hg]. exists n. repeat split; assumption.
Qed.

(** C10. An object that the instance reaches only under names that start
    with an underscore is in neither index, whatever tags it carries; an
    object that is in an index was reached under a public name. *)
Theorem underscore_members_are_not_registered
    (body : ClassBody) (b : EventHandler) (m : EventHandler) :
  let self := __init__ body b in
  (forall name, getattr self name = Some m -> startswith_underscore name = true) ->
  (forall k, _commands self !! k <> Some m) /\
  (forall e l, _listeners self !! e = Some l -> m ∉ l).
Proof.
  intros self Hm. split.
  - intros k Hk. apply registered_command_is_public in Hk as (n & Hp & Hg & _).
    apply Hm in Hg. congruence.
  - intros e l Hl Hin.
    destruct (registered_listener_is_public body b e l m Hl Hin) as (n & Hp & Hg & _).
    apply Hm in Hg. congruence.
Qed.

End CogFacts.

(** ** A concrete cog *)

Section CogExamples.

Import Cog Samples.

Example Greeter_indices :
  let self := __init__ Greeter the_bot in
  _commands self = {[ "hi" := hello; "ping" := ping ]} /\
  _listeners self = {[ "on_message" := [alpha; zeta] ]} /\
  discovered self
    = [ ("alpha", alpha); ("bot", the_bot); ("cog_load", plain "Cog.cog_load");
        ("cog_unload", plain "Cog.cog_unload"); ("command", plain "Cog.command");
        ("hello", hello); ("listener", plain "Cog.listener"); ("ping", ping);
        ("zeta", zeta) ].
Proof. repeat split; vm_compute; reflexivity. Qed.





(** Both at once, in [Greeter]. *)
Example Greeter_commands :
  _commands (__init__ Greeter the_bot) !! "hi" = Some hello /\
  _commands (__init__ Greeter the_bot) !! "hello" = None /\
  _commands (__init__ Greeter the_bot) !! "ping" = Some ping.
Proof. repeat split; vm_compute; reflexivity. Qed.

Lemma underscore_members_are_not_registered_witness :
  let self := __init__ Greeter the_bot in
  (forall k, _commands self !! k <> Some _hidden) /\
  (forall e l, _listeners self !! e = Some l -> _hidden ∉ l).
Proof.
  intros self.
  apply (underscore_members_are_not_registered Greeter the_bot _hidden).
  intros name Hg.
  refine (getattr_cases (__init__ Greeter the_bot)
            (fun n x => x = _hidden -> startswith_underscore n = true)
            name _hidden _ _ Hg eq_refl).
  - rewrite init_bot. discriminate.
  - rewrite init_cls. cbv beta. apply (bool_decide_unpack _). vm_compute. exact I.
Defined.

End CogExamples.

(** ** The MIME table *)

Section MimeFacts.

Import Mime.

Lemma contains_dot_app (s t : string) :
  contains_dot (s +:+ t) = contains_dot s || contains_dot t.
Proof.
  induction s as [|c s IH]; [reflexivity|].
  change (String c s +:+ t) with (String c (s +:+ t)).
  cbn [contains_dot]. destruct (decide (c = "."%char)); [reflexivity | exact IH].
Qed.

Lemma split_last_dot_None (s : string) :
  contains_dot s = false -> split_last_dot s = None.
Proof.
  induction s as [|c s IH]; [reflexivity|].
  cbn [contains_dot split_last_dot]. destruct (decide (c = "."%char)); [discriminate|].
  intros Hs. rewrite (IH Hs). reflexivity.
Qed.

(** The last dot of [stem.ext] is the one before [ext], when [ext] has no
    dot itself. *)
Lemma split_last_dot_app (stem ext : string) :
  contains_dot ext = false ->
  split_last_dot (stem +:+ "." +:+ ext) = Some (stem, ext).
Proof.
  intros Hext. induction stem as [|c stem IH].
  - change ("" +:+ "." +:+ ext) with (String "."%char ext).
    cbn [split_last_dot]. rewrite (split_last_dot_None ext Hext). reflexivity.
  - change (String c stem +:+ "." +:+ ext) with (String c (stem +:+ "." +:+ ext)).
    cbn [split_last_dot]. rewrite IH. reflexivity.
Qed.

Lemma mime_type_of_extension (stem ext : string) :
  contains_dot ext = false ->
  _get_mime_type (stem +:+ "." +:+ ext)
  = default "application/octet-stream" (mime_map !! lower ext).
Proof.
  intros Hext. unfold _get_mime_type, rsplit_dot.
  rewrite contains_dot_app.
  assert (contains_dot ("." +:+ ext) = true) as -> by reflexivity.
  rewrite orb_true_r.
  rewrite (split_last_dot_app stem ext Hext). reflexivity.
Qed.

(** X1. The MIME type of a file name is decided by the text after its last
    dot, without regard to the case of ASCII letters: two names whose
    extensions agree up to case get the same type, whatever comes before
    the dot. *)
Theorem mime_type_depends_on_extension_only (stem stem' ext ext' : string) :
  contains_dot ext = false -> contains_dot ext' = false ->
  lower ext = lower ext' ->
  _get_mime_type (stem +:+ "." +:+ ext) = _get_mime_type (stem' +:+ "." +:+ ext').
Proof.
  intros He He' Hl. rewrite !mime_type_of_extension by assumption.
  rewrite Hl. reflexivity.
Qed.

Lemma mime_type_depends_on_extension_only_witness :
  _get_mime_type ("holiday.photo" +:+ "." +:+ "JPG") = _get_mime_type ("x" +:+ "." +:+ "jpg").
Proof.
  apply (mime_type_depends_on_extension_only "holiday.photo" "x" "JPG" "jpg"); reflexivity.
Defined.

(** X2. A file name without a dot, one that ends in a dot, and one whose
    extension is not a key of the table all get
    [application/octet-stream]; a name that gets another type ends in a dot
    and one of the twelve extensions, up to case. *)
Theorem mime_type_defaults_to_octet_stream (filename : string) :
  (contains_dot filename = false ->
   _get_mime_type filename = "application/octet-stream") /\
  _get_mime_type (filename +:+ ".") = "application/octet-stream" /\
  (forall ext, contains_dot ext = false -> mime_map !! lower ext = None ->
     _get_mime_type (filename +:+ "." +:+ ext) = "application/octet-stream") /\
  (_get_mime_type filename <> "application/octet-stream" ->
   exists stem ext, filename = stem +:+ "." +:+ ext /\ contains_dot ext = false /\
     is_Some (mime_map !! lower ext)).
Proof.
  repeat split.
  - intros Hd. unfold _get_mime_type. rewrite Hd. reflexivity.
  - change (filename +:+ ".") with (filename +:+ "." +:+ "").
    rewrite mime_type_of_extension by reflexivity. reflexivity.
  - intros ext Hext Hnone. rewrite mime_type_of_extension by assumption.
    rewrite Hnone. reflexivity.
  - intros Hne. destruct (contains_dot filename) eqn:Hd.
    + assert (exists stem ext, filename = stem +:+ "." +:+ ext /\ contains_dot ext = false)
        as (stem & ext & -> & Hext).
      { clear Hne. induction filename as [|c s IH]; [discriminate|].
        cbn [contains_dot] in Hd. destruct (contains_dot s) eqn:Hs.
        - destruct (IH eq_refl) as (stem & ext & -> & Hext).
          exists (String c stem), ext. split; [reflexivity | exact Hext].
        - destruct (decide (c = "."%char)) as [->|]; [|discriminate].
          exists "", s. split; [reflexivity | exact Hs]. }
      exists stem, ext. repeat split; [exact Hext|].
      rewrite mime_type_of_extension in Hne by assumption.
      destruct (mime_map !! lower ext); [eexists; reflexivity | contradiction].
    + exfalso. apply Hne. unfold _get_mime_type. rewrite Hd. reflexivity.
Qed.

Example mime_types :
  _get_mime_type "cat.PNG" = "image/png" /\
  _get_mime_type "archive.tar.gz" = "application/octet-stream" /\
  _get_mime_type ".json" = "application/json" /\
  _get_mime_type "README" = "application/octet-stream".
Proof. repeat split; vm_compute; reflexivity. Qed.

End MimeFacts.

(** ** More on the snowflake codec *)

Section CodecFacts.

Import Py PyFloat Utils.
Local Open Scope Z_scope.

(** X3. Before 2038-01-19T03:14:08Z the round trip of an aware datetime
    is exact: an aware datetime of whole milliseconds that is not before
    the epoch of the identifiers is the instant of its own identifier,
    which fits 63 bits and has its 22 low bits clear.  (A naive datetime
    is outside: its timestamp depends on the zone of the host, and the
    datetime that comes back is aware.) *)
Theorem roundtrip_exact_before_2038 (dt : datetime) :
  dt mod 1000 = 0 -> FLUXER_EPOCH * 1000 <= dt < 2 ^ 31 * 1000000 ->
  exists s, datetime_to_snowflake dt = Ok s /\ snowflake_to_datetime (VInt s) = Ok dt /\
    0 <= s < 2 ^ 63 /\ Z.land s (2 ^ 22 - 1) = 0.
Proof.
  intros Hmod Hdt. unfold FLUXER_EPOCH in Hdt.
  assert (dt = dt / 1000 * 1000) as Hms.
  { pose proof (Z.div_mod dt 1000 ltac:(lia)). lia. }
  assert (FLUXER_EPOCH <= dt / 1000 < 2 ^ 31 * 1000) as Hrange
    by (unfold FLUXER_EPOCH; lia).
  destruct (roundtrip_before_2038 (dt / 1000) Hrange) as [Hto Hfrom].
  rewrite <- Hms in Hto, Hfrom.
  exists (Z.shiftl (dt / 1000 - FLUXER_EPOCH) 22). split; [exact Hto|]. split; [exact Hfrom|].
  unfold FLUXER_EPOCH in *. split.
  - rewrite Z.shiftl_mul_pow2 by lia. lia.
  - change (2 ^ 22 - 1) with (Z.ones 22). rewrite Z.land_ones by lia.
    rewrite Z.shiftl_mul_pow2 by lia. apply Z.mod_mul. lia.
Qed.

Lemma roundtrip_exact_before_2038_witness :
  exists s, datetime_to_snowflake 1462015105796000 = Ok s /\
    snowflake_to_datetime (VInt s) = Ok 1462015105796000 /\
    0 <= s < 2 ^ 63 /\ Z.land s (2 ^ 22 - 1) = 0.
Proof.
  apply (roundtrip_exact_before_2038 1462015105796000);
    [reflexivity | unfold FLUXER_EPOCH; lia].
Defined.

Lemma shiftl_shiftr_22 (n : Z) :
  0 <= n -> n - 2 ^ 22 < Z.shiftl (Z.shiftr n 22) 22 <= n.
Proof.
  intros Hn. rewrite Z.shiftr_div_pow2, Z.shiftl_mul_pow2 by lia.
  pose proof (Z.div_mod n (2 ^ 22) ltac:(lia)).
  pose proof (Z.mod_pos_bound n (2 ^ 22) ltac:(lia)). lia.
Qed.

(** X4. The other round trip, from an identifier to its instant and back,
    keeps the timestamp and clears the 22 low bits: for an identifier whose
    instant is before 2038-01-19T03:14:08Z the result is the largest
    multiple of [2^22] not above it. *)
Theorem snowflake_of_created_at (n : Z) :
  0 <= n -> Z.shiftr n 22 + FLUXER_EPOCH < 2 ^ 31 * 1000 ->
  (snowflake_to_datetime (VInt n) ≫= datetime_to_snowflake)
    = Ok (Z.shiftl (Z.shiftr n 22) 22) /\
  n - 2 ^ 22 < Z.shiftl (Z.shiftr n 22) 22 <= n.
Proof.
  intros Hn Hlt. split; [|apply shiftl_shiftr_22; exact Hn].
  assert (0 <= Z.shiftr n 22) as Hs by (apply Z.shiftr_nonneg; exact Hn).
  assert (n < 2 ^ 64) as Hn64.
  { pose proof (shiftl_shiftr_22 n Hn) as [Hlo _].
    rewrite Z.shiftl_mul_pow2 in Hlo by lia. unfold FLUXER_EPOCH in Hlt. lia. }
  rewrite (snowflake_to_datetime_exact (VInt n) n eq_refl) by lia.
  cbn [mbind result_bind].
  destruct (timestamp_ms_before_2038 (Z.shiftr n 22 + FLUXER_EPOCH)) as (t & Ht & Htr);
    [unfold FLUXER_EPOCH in *; lia|].
  unfold datetime_to_snowflake. rewrite Ht. cbn [mbind result_bind]. rewrite Htr.
  do 2 f_equal. lia.
Qed.

Lemma snowflake_of_created_at_witness :
  (snowflake_to_datetime (VInt 175928847299117063) ≫= datetime_to_snowflake)
    = Ok (Z.shiftl (Z.shiftr 175928847299117063 22) 22) /\
  175928847299117063 - 2 ^ 22 < Z.shiftl (Z.shiftr 175928847299117063 22) 22
    <= 175928847299117063.
Proof.
  apply (snowflake_of_created_at 175928847299117063); [lia | vm_compute; reflexivity].
Defined.

(** X5. The instant of a 64-bit identifier depends on its upper 42 bits
    only, is a whole number of milliseconds, and is not before
    2015-01-01T00:00:00Z. *)
Theorem snowflake_instant (n n' : Z) :
  0 <= n < 2 ^ 64 -> 0 <= n' < 2 ^ 64 -> Z.shiftr n 22 = Z.shiftr n' 22 ->
  exists a : datetime,
    snowflake_to_datetime (VInt n) = Ok a /\
    snowflake_to_datetime (VInt n') = Ok a /\
    a mod 1000 = 0 /\ 1420070400000000 <= a.
Proof.
  intros Hn Hn' Heq. exists ((Z.shiftr n 22 + FLUXER_EPOCH) * 1000).
  rewrite (snowflake_to_datetime_exact (VInt n) n eq_refl) by lia.
  rewrite (snowflake_to_datetime_exact (VInt n') n' eq_refl) by lia.
  rewrite Heq. repeat split.
  - apply Z.mod_mul. lia.
  - assert (0 <= Z.shiftr n' 22) by (apply Z.shiftr_nonneg; lia).
    unfold FLUXER_EPOCH. lia.
Qed.

Lemma snowflake_instant_witness :
  exists a : datetime,
    snowflake_to_datetime (VInt 175928847299117063) = Ok a /\
    snowflake_to_datetime (VInt 175928847299117064) = Ok a /\
    a mod 1000 = 0 /\ 1420070400000000 <= a.
Proof.
  apply (snowflake_instant 175928847299117063 175928847299117064);
    [lia | lia | vm_compute; reflexivity].
Defined.

End CodecFacts.

(** ** More on hydration *)

Section HydrationFacts.

Import Py Utils Models Entities.
Context `{UserNames}.
Local Open Scope Z_scope.

(** Splits a hypothesis [r ≫= k = Ok x] into [r = Ok a] and [k a = Ok x]. *)
Ltac unbind H :=
  repeat (cbn [mbind result_bind] in H;
    match type of H with
    | (?r ≫= _) = Ok _ =>
      let E := fresh "E" in
      destruct r eqn:E; [cbn [mbind result_bind] in * | discriminate H]
    end).

Lemma getitem_Ok (data : gmap string Value) key v :
  getitem data key = Ok v -> data !! key = Some v.
Proof. unfold getitem. destruct (data !! key); [intros [= ->]; reflexivity | discriminate]. Qed.

Lemma Channel_from_data_inv (d : gmap string Value) http c :
  Channel_from_data d http = Ok c ->
  exists v t g p,
    getitem d "id" = Ok v /\ int v = Ok (channel_id_ c) /\ getitem d "type" = Ok t /\
    optional_id d "guild_id" = Ok g /\ optional_id d "parent_id" = Ok p /\
    c = mkChannel (channel_id_ c) t (get d "name" VNone) g (get d "position" VNone)
          (get d "topic" VNone) (get d "nsfw" (VBool false)) p http.
Proof.
  unfold Channel_from_data. intros Hc. unbind Hc. injection Hc as <-.
  cbn [channel_id_]. eexists _, _, _, _. repeat split; eassumption || reflexivity.
Qed.

Lemma Guild_from_data_inv (d : gmap string Value) http g :
  Guild_from_data d http = Ok g ->
  exists v o,
    getitem d "id" = Ok v /\ int v = Ok (guild_id_ g) /\
    optional_id d "owner_id" = Ok o /\
    g = mkGuild (guild_id_ g) (get d "name" VNone) (get d "icon" VNone) o
          (get d "member_count" VNone) (get d "unavailable" (VBool false)) http.
Proof.
  unfold Guild_from_data. intros Hg. unbind Hg. injection Hg as <-.
  cbn [guild_id_]. eexists _, _. repeat split; eassumption || reflexivity.
Qed.

Lemma Message_from_data_inv (d : gmap string Value) http m :
  Message_from_data d http = Ok m ->
  exists a us vi vc ts g,
    getitem d "author" = Ok a /\ User_from_data a http = Ok (message_author m) /\
    iterate (get d "mentions" (VList [])) = Ok us /\
    comprehension (fun u => User_from_data u http) us = Ok (message_mentions m) /\
    getitem d "id" = Ok vi /\ int vi = Ok (message_id m) /\
    getitem d "channel_id" = Ok vc /\ int vc = Ok (message_channel_id m) /\
    getitem d "timestamp" = Ok ts /\ optional_id d "guild_id" = Ok g /\
    m = mkMessage (message_id m) (message_channel_id m) (get d "content" (VStr ""))
          (message_author m) ts (get d "edited_timestamp" VNone) g
          (get d "embeds" (VList [])) (get d "attachments" (VList []))
          (message_mentions m) (get d "pinned" (VBool false)) http None.
Proof.
  unfold Message_from_data. intros Hm. unbind Hm. injection Hm as <-.
  cbn [message_id message_channel_id message_author message_mentions].
  eexists _, _, _, _, _, _. repeat split; eassumption || reflexivity.
Qed.

(** X6. A hydrated channel, guild or message has the identifier that
    [int] reads from the payload's [id], and is bound to the handle that
    was passed in; a hydrated message has no channel attached. *)
Theorem hydration_keeps_id_and_handle
    (dc dg dm : gmap string Value) (http : option HTTPClient)
    (c : Channel) (g : Guild) (m : Message) :
  Channel_from_data dc http = Ok c ->
  Guild_from_data dg http = Ok g ->
  Message_from_data dm http = Ok m ->
  (getitem dc "id" ≫= int = Ok (channel_id_ c) /\ channel_http c = http) /\
  (getitem dg "id" ≫= int = Ok (guild_id_ g) /\ guild_http g = http) /\
  (getitem dm "id" ≫= int = Ok (message_id m) /\
   getitem dm "channel_id" ≫= int = Ok (message_channel_id m) /\
   message_http m = http /\ Message_channel m = None).
Proof.
  intros Hc Hg Hm.
  apply Channel_from_data_inv in Hc as (v & t & gi & p & Hv & Hn & _ & _ & _ & Hc).
  apply Guild_from_data_inv in Hg as (v' & o & Hv' & Hn' & _ & Hg).
  apply Message_from_data_inv in Hm
    as (a & us & vi & vc & ts & gm & _ & _ & _ & _ & Hvi & Hi & Hvc & Hci & _ & _ & Hm).
  rewrite Hv, Hv', Hvi, Hvc. cbn [mbind result_bind].
  unfold Message_channel. rewrite Hc, Hg, Hm. repeat split; assumption.
Qed.

Lemma snowflake_to_datetime_int (v : Value) (n : Z) :
  int v = Ok n -> snowflake_to_datetime v = snowflake_to_datetime (VInt n).
Proof. intros Hv. unfold snowflake_to_datetime. rewrite Hv. reflexivity. Qed.

(** X7. [created_at] of a hydrated channel, guild or message is the
    instant of the payload's [id], whether that is a number or a string. *)
Theorem created_at_of_hydrated
    (dc dg dm : gmap string Value) (http : option HTTPClient)
    (c : Channel) (g : Guild) (m : Message) :
  Channel_from_data dc http = Ok c ->
  Guild_from_data dg http = Ok g ->
  Message_from_data dm http = Ok m ->
  Channel_created_at c = (getitem dc "id" ≫= snowflake_to_datetime) /\
  Guild_created_at g = (getitem dg "id" ≫= snowflake_to_datetime) /\
  Message_created_at m = (getitem dm "id" ≫= snowflake_to_datetime).
Proof.
  intros Hc Hg Hm.
  apply Channel_from_data_inv in Hc as (v & t & gi & p & Hv & Hn & _).
  apply Guild_from_data_inv in Hg as (v' & o & Hv' & Hn' & _).
  apply Message_from_data_inv in Hm
    as (a & us & vi & vc & ts & gm & _ & _ & _ & _ & Hvi & Hi & _).
  rewrite Hv, Hv', Hvi. cbn [mbind result_bind].
  unfold Channel_created_at, Guild_created_at, Message_created_at.
  rewrite (snowflake_to_datetime_int v _ Hn), (snowflake_to_datetime_int v' _ Hn'),
    (snowflake_to_datetime_int vi _ Hi).
  repeat split.
Qed.

(** X8. Two hydrated channels are equal exactly when their payloads hold
    the same identifier, as a number or as a string, whatever their other
    fields and handles; equal channels have equal hashes, and a channel
    equals no object that is not a channel. *)
Theorem channels_equal_iff_same_id
    (d1 d2 : gmap string Value) (h1 h2 : option HTTPClient) (c1 c2 : Channel) :
  Channel_from_data d1 h1 = Ok c1 ->
  Channel_from_data d2 h2 = Ok c2 ->
  (Channel_eq c1 (inl c2) = true <->
   getitem d1 "id" ≫= int = getitem d2 "id" ≫= int) /\
  (Channel_eq c1 (inl c2) = true -> Channel_hash c1 = Channel_hash c2) /\
  Channel_eq c1 (inl c2) = Channel_eq c2 (inl c1) /\
  (forall other : Value, Channel_eq c1 (inr other) = false).
Proof.
  intros H1 H2.
  apply Channel_from_data_inv in H1 as (v1 & _ & _ & _ & Hv1 & Hn1 & _).
  apply Channel_from_data_inv in H2 as (v2 & _ & _ & _ & Hv2 & Hn2 & _).
  rewrite Hv1, Hv2. cbn [mbind result_bind]. rewrite Hn1, Hn2.
  unfold Channel_eq, Channel_hash. repeat split.
  - intros Heq%Z.eqb_eq. rewrite Heq. reflexivity.
  - intros [= Heq]. apply Z.eqb_eq, Heq.
  - intros Heq%Z.eqb_eq. rewrite Heq. reflexivity.
  - apply Z.eqb_sym.
Qed.


Lemma deref_bind_Ok {A} (http : option HTTPClient) method
    (call : HTTPClient -> result A) (k : A -> result Message) m :
  (deref http method call ≫= k) = Ok m ->
  exists h a, http = Some h /\ call h = Ok a /\ k a = Ok m.
Proof.
  destruct http as [h|]; cbn [deref]; [|discriminate].
  destruct (call h) as [a|e] eqn:Hcall; [|discriminate].
  cbn [mbind result_bind]. eauto.
Qed.

(** X9. (Keyword arguments that repeat [content] are refused by Python
    before the call, so they are excluded.)  Every message that
    [Channel.send], [Channel.fetch_message],
    [Message.reply] or [Message.edit] returns is bound to the handle of the
    channel or message it came from, with no channel attached; deleting it
    is the transport's [delete_message] on its own identifiers. *)
Theorem returned_message_is_bound
    (http : option HTTPClient) (c : Channel) (m0 m : Message)
    (content files message_reference message_id : Value)
    (embed : option Embed) (embeds : option (list Embed)) (kwargs : gmap string Value) :
  channel_http c = http ->
  message_http m0 = http ->
  kwargs !! "content" = None ->
  Channel_send c content embed embeds files message_reference = Ok m \/
  Channel_fetch_message c message_id = Ok m \/
  Message_reply m0 content kwargs = Ok m \/
  Message_edit m0 content kwargs = Ok m ->
  exists h, http = Some h /\ message_http m = Some h /\ Message_channel m = None /\
    Message_delete m = delete_message h (message_channel_id m) (Models.message_id m).
Proof.
  intros Hc Hm0 _ Hm.
  assert (exists h d, http = Some h /\ Message_from_data d http = Ok m) as (h & d & -> & Hd).
  { unfold Channel_send, Channel_fetch_message, Message_reply, Message_edit in Hm.
    rewrite Hc, Hm0 in Hm.
    destruct Hm as [Hm|[Hm|[Hm|Hm]]];
      (case_bool_decide; [discriminate Hm|]);
      apply deref_bind_Ok in Hm as (h & d & -> & _ & Hd); eauto. }
  exists h. split; [reflexivity|].
  apply Message_from_data_inv in Hd
    as (a & us & vi & vc & ts & gm & _ & _ & _ & _ & _ & _ & _ & _ & _ & _ & Hd).
  rewrite Hd. repeat split.
Qed.

(** X10. The models catch nothing: when every request of the transport
    fails with an error, each bound operation fails with that error (for
    keyword arguments that do not repeat [content], which Python refuses
    before the call). *)
Theorem transport_errors_propagate
    (h : HTTPClient) (e : PyError) (c : Channel) (m : Message) (g : Guild) (r : Reaction)
    (content files message_reference message_id : Value)
    (embed : option Embed) (embeds : option (list Embed)) (kwargs : gmap string Value)
    (user : User + Value) :
  (forall id payload, send_message h id payload = Raise e) ->
  (forall id mid, get_message h id mid = Raise e) ->
  (forall id mid payload, edit_message h id mid payload = Raise e) ->
  (forall id mid, delete_message h id mid = Raise e) ->
  (forall id mid emoji u, delete_reaction h id mid emoji u = Raise e) ->
  (forall id mid emoji, delete_all_reactions_for_emoji h id mid emoji = Raise e) ->
  (forall id, get_guild_emojis h id = Raise e) ->
  http_truthy h = true ->
  channel_http c = Some h -> message_http m = Some h -> guild_http g = Some h ->
  reaction_http r = Some h -> reaction_message r = Some m ->
  kwargs !! "content" = None ->
  Channel_send c content embed embeds files message_reference = Raise e /\
  Channel_fetch_message c message_id = Raise e /\
  Message_reply m content kwargs = Raise e /\
  Message_edit m content kwargs = Raise e /\
  Message_delete m = Raise e /\
  Guild_fetch_emojis g = Raise e /\
  Reaction_remove r user = Raise e /\
  Reaction_clear r = Raise e.
Proof.
  intros Hsend Hget Hedit Hdel Hrem Hclear Hemojis Ht Hc Hm Hg Hr Hrm _.
  unfold Channel_send, Channel_fetch_message, Message_reply, Message_edit,
    Message_delete, Guild_fetch_emojis, Reaction_remove, Reaction_clear.
  rewrite Hc, Hm, Hg, Hr, Hrm. cbn [not_http not_message deref deref_message].
  rewrite Ht. cbn [negb orb mbind result_bind].
  rewrite !bool_decide_eq_false_2 by discriminate.
  rewrite ?Hsend, ?Hget, ?Hedit, ?Hdel, ?Hrem, ?Hclear, ?Hemojis.
  repeat split.
Qed.

(** X11. In [Channel.send] a truthy [embed] is sent alone, whatever
    [embeds] holds; a falsy [embed] counts as none; and an empty [embeds]
    counts as none. *)
Theorem send_embed_precedence
    (c : Channel) (content files message_reference : Value)
    (e : Embed) (embeds : option (list Embed)) :
  (Embed_truthy e = true ->
   Channel_send c content (Some e) embeds files message_reference =
   Channel_send c content None (Some [e]) files message_reference) /\
  (Embed_truthy e = false ->
   Channel_send c content (Some e) embeds files message_reference =
   Channel_send c content None embeds files message_reference) /\
  Channel_send c content None (Some []) files message_reference =
  Channel_send c content None None files message_reference.
Proof.
  unfold Channel_send. repeat split.
  - intros ->. reflexivity.
  - intros ->. reflexivity.
Qed.

(** *** Emojis, reactions and raw events *)

Lemma PartialEmoji_from_data_inv (d : gmap string Value) e :
  PartialEmoji_from_data d = Ok e ->
  emoji_name e = get d "name" VNone /\ emoji_animated e = get d "animated" (VBool false) /\
  if truthy (get d "id" VNone)
  then exists n, int (get d "id" VNone) = Ok n /\ emoji_id e = Some n
  else emoji_id e = None.
Proof.
  unfold PartialEmoji_from_data.
  destruct (truthy (get d "id" VNone)).
  - destruct (int (get d "id" VNone)) as [n|]; [|discriminate].
    cbn [mbind result_bind]. intros [= <-]. cbn. eauto.
  - cbn [mbind result_bind]. intros [= <-]. cbn. auto.
Qed.

(** X12. A hydrated emoji is a custom emoji exactly when the payload's
    [id] is truthy, and a unicode emoji otherwise: an absent, null, zero or
    empty identifier gives a unicode emoji. *)
Theorem emoji_kind_of_payload (d : gmap string Value) (e : PartialEmoji) :
  PartialEmoji_from_data d = Ok e ->
  is_custom_emoji e = truthy (get d "id" VNone) /\
  is_unicode_emoji e = negb (truthy (get d "id" VNone)) /\
  (forall n, emoji_id e = Some n -> (getitem d "id" ≫= int) = Ok n).
Proof.
  intros He. apply PartialEmoji_from_data_inv in He as (_ & _ & He).
  unfold is_custom_emoji, is_unicode_emoji.
  destruct (truthy (get d "id" VNone)) eqn:Ht.
  - destruct He as (n & Hn & ->). rewrite bool_decide_eq_false_2 by discriminate.
    split; [reflexivity|]. split; [reflexivity|]. intros n' [= <-].
    unfold get in *. unfold getitem. destruct (d !! "id") as [v|].
    + cbn in *. exact Hn.
    + discriminate Ht.
  - rewrite He. rewrite bool_decide_eq_true_2 by reflexivity.
    split; [reflexivity|]. split; [reflexivity|]. discriminate.
Qed.

Lemma Reaction_from_data_inv (d : gmap string Value) http message r :
  Reaction_from_data d http message = Ok r ->
  reaction_message r = message /\ reaction_http r = http /\
  reaction_count r = get d "count" (VInt 0) /\ reaction_me r = get d "me" (VBool false) /\
  exists v e, getitem d "emoji" = Ok v /\ with_get v = Ok e /\
    PartialEmoji_from_data e = Ok (reaction_emoji r).
Proof.
  unfold Reaction_from_data. intros Hr. unbind Hr. injection Hr as <-.
  cbn. repeat split. eauto.
Qed.

(** X13. A reaction hydrated without a message cannot be removed or
    cleared, bound or not: both fail with [RuntimeError] before the
    transport is reached.  Hydrated with a message and a truthy handle,
    clearing it is the transport's request on the message's identifiers. *)
Theorem reaction_needs_its_message
    (d : gmap string Value) (http : option HTTPClient) (message : option Message)
    (r : Reaction) (user : User + Value) :
  Reaction_from_data d http message = Ok r ->
  (message = None ->
   Reaction_remove r user =
     Raise (RuntimeError "Cannot remove reaction without HTTPClient and Message") /\
   Reaction_clear r =
     Raise (RuntimeError "Cannot clear reaction without HTTPClient and Message")) /\
  (forall h m, http = Some h -> http_truthy h = true -> message = Some m ->
   Reaction_clear r =
     delete_all_reactions_for_emoji h (message_channel_id m) (message_id m)
       (reaction_emoji r) /\
   Reaction_remove r user =
     delete_reaction h (message_channel_id m) (message_id m) (reaction_emoji r)
       match user with inl u => VInt (User_id u) | inr raw => raw end).
Proof.
  intros Hr. apply Reaction_from_data_inv in Hr as (Hm & Hh & _).
  unfold Reaction_remove, Reaction_clear. rewrite Hm, Hh. split.
  - intros ->. cbn [not_message]. rewrite orb_true_r. split; reflexivity.
  - intros h m -> Ht ->. cbn [not_http not_message deref deref_message].
    rewrite Ht. cbn. split; reflexivity.
Qed.

(** X14. A payload that hydrates as a reaction add or remove event also
    hydrates as a clear-emoji event and as a clear event, with the same
    message, channel, guild and emoji. *)
Theorem raw_events_agree (d : gmap string Value) (event_type : string)
    (a : RawReactionActionEvent) :
  RawReactionActionEvent_from_data d event_type = Ok a ->
  RawReactionClearEmojiEvent_from_data d =
    Ok (mkRawReactionClearEmojiEvent (action_message_id a) (action_channel_id a)
          (action_guild_id a) (action_emoji a)) /\
  RawReactionClearEvent_from_data d =
    Ok (mkRawReactionClearEvent (action_message_id a) (action_channel_id a)
          (action_guild_id a)) /\
  action_event_type a = event_type.
Proof.
  unfold RawReactionActionEvent_from_data, RawReactionClearEmojiEvent_from_data,
    RawReactionClearEvent_from_data.
  intros Ha. unbind Ha. injection Ha as <-. cbn. repeat split.
Qed.

(** X15. The key read first decides the failure: a payload without it
    fails with [KeyError] on that key, whatever else it holds or lacks. *)
Theorem first_missing_key_is_reported
    (d : gmap string Value) (http : option HTTPClient) (message : option Message)
    (event_type : string) :
  (d !! "id" = None ->
   Channel_from_data d http = Raise (KeyError "id") /\
   Guild_from_data d http = Raise (KeyError "id")) /\
  (d !! "author" = None -> Message_from_data d http = Raise (KeyError "author")) /\
  (d !! "user" = None -> GuildMember_from_data d http = Raise (KeyError "user")) /\
  (d !! "emoji" = None ->
   Reaction_from_data d http message = Raise (KeyError "emoji") /\
   RawReactionActionEvent_from_data d event_type = Raise (KeyError "emoji") /\
   RawReactionClearEmojiEvent_from_data d = Raise (KeyError "emoji")) /\
  (d !! "message_id" = None ->
   RawReactionClearEvent_from_data d = Raise (KeyError "message_id")).
Proof.
  unfold Channel_from_data, Guild_from_data, Message_from_data, GuildMember_from_data,
    Reaction_from_data, RawReactionActionEvent_from_data,
    RawReactionClearEmojiEvent_from_data, RawReactionClearEvent_from_data, getitem.
  repeat match goal with |- _ /\ _ => split end; intros ->; repeat split.
Qed.

(** X16. Each raw reaction event on its own payload: when the payload's
    [guild_id] is absent, null, zero or empty, the event hydrates exactly
    as the payload without that key does, and its guild identifier is
    [None]. *)
Theorem falsy_optional_ids_of_events_are_None
    (da dc de : gmap string Value) (event_type : string) :
  truthy (get da "guild_id" VNone) = false ->
  truthy (get dc "guild_id" VNone) = false ->
  truthy (get de "guild_id" VNone) = false ->
  (RawReactionActionEvent_from_data da event_type
     = RawReactionActionEvent_from_data (delete "guild_id" da) event_type /\
   forall a, RawReactionActionEvent_from_data da event_type = Ok a ->
     action_guild_id a = None) /\
  (RawReactionClearEvent_from_data dc
     = RawReactionClearEvent_from_data (delete "guild_id" dc) /\
   forall c, RawReactionClearEvent_from_data dc = Ok c -> clear_guild_id c = None) /\
  (RawReactionClearEmojiEvent_from_data de
     = RawReactionClearEmojiEvent_from_data (delete "guild_id" de) /\
   forall ce, RawReactionClearEmojiEvent_from_data de = Ok ce ->
     clear_emoji_guild_id ce = None).
Proof.
  intros Ha Hc He.
  apply optional_id_falsy in Ha, Hc, He.
  unfold RawReactionActionEvent_from_data, RawReactionClearEvent_from_data,
    RawReactionClearEmojiEvent_from_data.
  rewrite !optional_id_delete, Ha, Hc, He.
  rewrite !getitem_delete_ne by discriminate.
  repeat apply conj; try reflexivity.
  - intros a Hok. unbind Hok. injection Hok as <-. reflexivity.
  - intros c Hok. unbind Hok. injection Hok as <-. reflexivity.
  - intros ce Hok. unbind Hok. injection Hok as <-. reflexivity.
Qed.


(** *** When hydration succeeds *)

Lemma optional_id_Ok_iff (d : gmap string Value) key :
  (exists o, optional_id d key = Ok o) <->
  (truthy (get d key VNone) = true -> exists n, int (get d key VNone) = Ok n).
Proof.
  split.
  - intros [o Ho] Ht. unfold optional_id in Ho. rewrite Ht in Ho.
    unfold get in *. unfold getitem in Ho. destruct (d !! key) as [v|]; [|discriminate Ht].
    cbn in *. destruct (int v) as [n|]; [eauto|discriminate].
  - intros Hn. destruct (truthy (get d key VNone)) eqn:Ht.
    + destruct (Hn eq_refl) as [n Hn']. eauto using optional_id_truthy.
    + eauto using optional_id_falsy.
Qed.

(** X17. A channel payload hydrates exactly when its [id] is present and
    parses, its [type] is present, and each of [guild_id] and [parent_id]
    is falsy or parses; a guild payload, when its [id] is present and
    parses and [owner_id] is falsy or parses. *)
Theorem channel_and_guild_hydrate_iff (d : gmap string Value) (http : option HTTPClient) :
  ((exists c, Channel_from_data d http = Ok c) <->
   (exists n, getitem d "id" ≫= int = Ok n) /\ is_Some (d !! "type") /\
   (truthy (get d "guild_id" VNone) = true -> exists n, int (get d "guild_id" VNone) = Ok n) /\
   (truthy (get d "parent_id" VNone) = true ->
    exists n, int (get d "parent_id" VNone) = Ok n)) /\
  ((exists g, Guild_from_data d http = Ok g) <->
   (exists n, getitem d "id" ≫= int = Ok n) /\
   (truthy (get d "owner_id" VNone) = true -> exists n, int (get d "owner_id" VNone) = Ok n)).
Proof.
  split; split.
  - intros [c Hc].
    apply Channel_from_data_inv in Hc as (v & t & g & p & Hv & Hn & Ht & Hg & Hp & _).
    rewrite Hv. cbn [mbind result_bind]. repeat split.
    + eauto.
    + apply getitem_Ok in Ht. rewrite Ht. eauto.
    + apply optional_id_Ok_iff. eauto.
    + apply optional_id_Ok_iff. eauto.
  - intros ([n Hn] & [t Ht] & Hg & Hp).
    apply optional_id_Ok_iff in Hg as [g Hg]. apply optional_id_Ok_iff in Hp as [p Hp].
    unfold Channel_from_data. rewrite Hg, Hp.
    destruct (getitem d "id") as [v|]; [|discriminate Hn]. cbn [mbind result_bind] in *.
    rewrite Hn. unfold getitem. rewrite Ht. cbn [mbind result_bind]. eauto.
  - intros [g Hg].
    apply Guild_from_data_inv in Hg as (v & o & Hv & Hn & Ho & _).
    rewrite Hv. cbn [mbind result_bind]. split; [eauto|].
    apply optional_id_Ok_iff. eauto.
  - intros ([n Hn] & Ho). apply optional_id_Ok_iff in Ho as [o Ho].
    unfold Guild_from_data. rewrite Ho.
    destruct (getitem d "id") as [v|]; [|discriminate Hn]. cbn [mbind result_bind] in *.
    rewrite Hn. cbn [mbind result_bind]. eauto.
Qed.

Lemma getitem_Raise_inv (d : gmap string Value) key e :
  getitem d key = Raise e -> d !! key = None /\ e = KeyError key.
Proof.
  unfold getitem. destruct (d !! key); [discriminate|]. intros [= <-]. split; reflexivity.
Qed.

Lemma optional_id_Raise_inv (d : gmap string Value) key e :
  optional_id d key = Raise e -> exists v, d !! key = Some v /\ int v = Raise e.
Proof.
  unfold optional_id, getitem, get. destruct (d !! key) as [v|]; cbn.
  - destruct (truthy v); [|discriminate].
    destruct (int v) as [n|e'] eqn:Hn; cbn [mbind result_bind]; [discriminate|].
    intros [= <-]. eauto.
  - discriminate.
Qed.

(** Walks a failing chain [r ≫= k = Raise e] to the link that fails, and
    reports it as a missing key or as a refusal of [int]. *)
Ltac failing_link H :=
  repeat (cbn [mbind result_bind] in H;
    match type of H with
    | (getitem ?d ?k ≫= _) = Raise _ =>
      let E := fresh "E" in
      destruct (getitem d k) eqn:E;
      [ apply getitem_Ok in E
      | injection H as <-; apply getitem_Raise_inv in E as [E ->];
        left; exists k; split; [set_solver | split; [exact E | reflexivity]] ]
    | (int ?v ≫= _) = Raise _ =>
      let E := fresh "E" in
      destruct (int v) eqn:E;
      [ | injection H as <-; right;
          (eexists _, v; split; [|split; [eassumption | exact E]]); set_solver ]
    | (optional_id ?d ?k ≫= _) = Raise _ =>
      let E := fresh "E" in
      destruct (optional_id d k) eqn:E;
      [ | injection H as <-; apply optional_id_Raise_inv in E as (v & Hv & E);
          right; exists k, v; split; [set_solver | split; assumption] ]
    end).

(** X18. Hydrating a channel, a guild or a reaction clear event raises
    nothing of its own: when it fails, either a key that it reads with
    [data[key]] is missing and the error is the [KeyError] on that key, or
    the error is the one that [int] raises on the payload's value of one
    of its identifier keys. *)
Theorem hydration_fails_on_missing_key_or_int
    (d : gmap string Value) (http : option HTTPClient) (e : PyError) :
  (Channel_from_data d http = Raise e ->
   hydration_failure ["id"; "type"] ["id"; "guild_id"; "parent_id"] d e) /\
  (Guild_from_data d http = Raise e ->
   hydration_failure ["id"] ["id"; "owner_id"] d e) /\
  (RawReactionClearEvent_from_data d = Raise e ->
   hydration_failure ["message_id"; "channel_id"]
     ["message_id"; "channel_id"; "guild_id"] d e).
Proof.
  unfold Channel_from_data, Guild_from_data, RawReactionClearEvent_from_data,
    hydration_failure.
  repeat apply conj; intros He; failing_link He; discriminate He.
Qed.

(** *** member.py *)

Lemma GuildMember_from_data_inv (d : gmap string Value) http gm :
  GuildMember_from_data d http = Ok gm ->
  exists u rs,
    getitem d "user" = Ok u /\ User_from_data u http = Ok (member_user gm) /\
    iterate (get d "roles" (VList [])) = Ok rs /\
    comprehension int rs = Ok (member_roles gm) /\
    optional_id d "inviter_id" = Ok (member_inviter_id gm) /\
    member_nick gm = get d "nick" VNone /\ member_http gm = http.
Proof.
  unfold GuildMember_from_data. intros Hm. unbind Hm. injection Hm as <-.
  cbn. eexists _, _. repeat split; eassumption.
Qed.

(** X19. A hydrated member has one role per element of the payload's
    [roles], each the [int] of that element, in the payload's order, and no
    role when the key is absent; its user is hydrated from the payload's
    [user] with the member's handle; a falsy [inviter_id] is [None]. *)
Theorem member_roles_follow_the_payload
    (d : gmap string Value) (http : option HTTPClient) (gm : GuildMember) :
  GuildMember_from_data d http = Ok gm ->
  (d !! "roles" = None -> member_roles gm = []) /\
  (forall rs, d !! "roles" = Some (VList rs) ->
   Forall2 (fun v n => int v = Ok n) rs (member_roles gm)) /\
  (getitem d "user" ≫= fun u => User_from_data u http) = Ok (member_user gm) /\
  member_http gm = http /\
  (truthy (get d "inviter_id" VNone) = false -> member_inviter_id gm = None).
Proof.
  intros Hm.
  apply GuildMember_from_data_inv in Hm as (u & rs & Hu & Huser & Hrs & Hroles & Hinv & _ & Hh).
  repeat match goal with |- _ /\ _ => split end.
  - intros Hnone. unfold get in Hrs. rewrite Hnone in Hrs. injection Hrs as <-.
    injection Hroles as <-. reflexivity.
  - intros rs' Hsome. unfold get in Hrs. rewrite Hsome in Hrs. injection Hrs as <-.
    apply comprehension_Ok_Forall2, Hroles.
  - rewrite Hu. exact Huser.
  - exact Hh.
  - intros Hf. rewrite (optional_id_falsy _ _ Hf) in Hinv. congruence.
Qed.

(** X20. The display name of a member is its nickname, else the global
    name of its user, else the user's name, the first of them that is
    truthy: an empty nickname is passed over.  It is falsy only when all
    three are. *)
Theorem display_name_is_first_truthy_name (gm : GuildMember) :
  (truthy (member_nick gm) = true -> GuildMember_display_name gm = member_nick gm) /\
  (truthy (member_nick gm) = false ->
   truthy (User_global_name (member_user gm)) = true ->
   GuildMember_display_name gm = User_global_name (member_user gm)) /\
  (truthy (member_nick gm) = false ->
   truthy (User_global_name (member_user gm)) = false ->
   GuildMember_display_name gm = User_username (member_user gm)) /\
  truthy (GuildMember_display_name gm) =
    truthy (member_nick gm) || truthy (User_global_name (member_user gm))
    || truthy (User_username (member_user gm)).
Proof.
  unfold GuildMember_display_name, or_else.
  destruct (truthy (member_nick gm)) eqn:Hn;
    destruct (truthy (User_global_name (member_user gm))) eqn:Hg;
    rewrite ?Hn, ?Hg; repeat split; try discriminate; cbn; try reflexivity.
Qed.

End HydrationFacts.

Section HydrationExamples.

Import Py Utils Models Entities Samples Fixtures.
Local Open Scope Z_scope.

#[local] Existing Instance fixture.
#[local] Existing Instance names.

Lemma hydration_keeps_id_and_handle_witness :
  (getitem general "id" ≫= int = Ok 1462015105796000000 /\
   channel_http a_channel = Some stub_client) /\
  (getitem home "id" ≫= int = Ok 175928847299117063 /\
   guild_http a_guild = Some stub_client) /\
  (getitem stub_message "id" ≫= int = Ok 42 /\
   getitem stub_message "channel_id" ≫= int = Ok 5 /\
   message_http a_message = Some stub_client /\ Message_channel a_message = None).
Proof.
  apply (@hydration_keeps_id_and_handle fixture general home stub_message
           (Some stub_client) a_channel a_guild a_message);
    reflexivity.
Defined.

Lemma created_at_of_hydrated_witness :
  Channel_created_at a_channel = (getitem general "id" ≫= snowflake_to_datetime) /\
  Guild_created_at a_guild = (getitem home "id" ≫= snowflake_to_datetime) /\
  Message_created_at a_message = (getitem stub_message "id" ≫= snowflake_to_datetime).
Proof.
  apply (@created_at_of_hydrated fixture general home stub_message
           (Some stub_client) a_channel a_guild a_message);
    reflexivity.
Defined.

(** The instants themselves: a channel of 2026, a guild of 2016 and a
    message of the first millisecond of the epoch. *)
Example created_at_samples :
  Channel_created_at a_channel = Ok 1768641964148000 /\
  Guild_created_at a_guild = Ok 1462015105796000 /\
  Message_created_at a_message = Ok 1420070400000000.
Proof. repeat split; vm_compute; reflexivity. Qed.

Lemma channels_equal_iff_same_id_witness :
  let c2 := mkChannel 1462015105796000000 (VInt 2) VNone (Some 99) VNone VNone
              (VBool false) None None in
  (Channel_eq a_channel (inl c2) = true <->
   getitem general "id" ≫= int = getitem general' "id" ≫= int) /\
  (Channel_eq a_channel (inl c2) = true -> Channel_hash a_channel = Channel_hash c2) /\
  Channel_eq a_channel (inl c2) = Channel_eq c2 (inl a_channel) /\
  (forall other : Value, Channel_eq a_channel (inr other) = false).
Proof.
  intros c2.
  apply (channels_equal_iff_same_id general general' (Some stub_client) None
           a_channel c2); reflexivity.
Defined.

Lemma returned_message_is_bound_witness :
  exists h, Some stub_client = Some h /\ message_http a_message = Some h /\
    Message_channel a_message = None /\
    Message_delete a_message =
      delete_message h (message_channel_id a_message) (message_id a_message).
Proof.
  apply (@returned_message_is_bound fixture (Some stub_client) (bound_to stub_client)
           (message_of stub_client) a_message (VStr "hi") VNone VNone (VInt 42)
           None None ∅); [reflexivity | reflexivity | reflexivity |].
  left. reflexivity.
Defined.

Lemma transport_errors_propagate_witness :
  let e := TransportError 403 in
  let h := failing_client e in
  let r := mkReaction thumbs_up (VInt 1) (VBool false) (Some (message_of h)) (Some h) in
  Channel_send (bound_to h) (VStr "hi") None None VNone VNone = Raise e /\
  Channel_fetch_message (bound_to h) (VInt 42) = Raise e /\
  Message_reply (message_of h) (VStr "hi") ∅ = Raise e /\
  Message_edit (message_of h) (VStr "hi") ∅ = Raise e /\
  Message_delete (message_of h) = Raise e /\
  Guild_fetch_emojis (guild_of h) = Raise e /\
  Reaction_remove r (inl 7) = Raise e /\
  Reaction_clear r = Raise e.
Proof.
  intros e h r.
  apply (@transport_errors_propagate fixture h e (bound_to h) (message_of h) (guild_of h) r);
    intros; reflexivity.
Defined.

Lemma emoji_kind_of_payload_witness :
  let d : gmap string Value := {[ "name" := VStr "wave"; "id" := VStr "5" ]} in
  let e := mkPartialEmoji (VStr "wave") (Some 5) (VBool false) in
  is_custom_emoji e = truthy (get d "id" VNone) /\
  is_unicode_emoji e = negb (truthy (get d "id" VNone)) /\
  (forall n, emoji_id e = Some n -> (getitem d "id" ≫= int) = Ok n).
Proof.
  intros d e. apply (emoji_kind_of_payload d e). reflexivity.
Defined.

Lemma reaction_needs_its_message_witness :
  let r := mkReaction (mkPartialEmoji (VStr "+1") None (VBool false)) (VInt 3) (VBool false)
             None (Some stub_client) in
  (@None Message = None ->
   Reaction_remove r (inr (VInt 7)) =
     Raise (RuntimeError "Cannot remove reaction without HTTPClient and Message") /\
   Reaction_clear r =
     Raise (RuntimeError "Cannot clear reaction without HTTPClient and Message")) /\
  (forall h m, Some stub_client = Some h -> http_truthy h = true -> None = Some m ->
   Reaction_clear r =
     delete_all_reactions_for_emoji h (message_channel_id m) (message_id m)
       (reaction_emoji r) /\
   Reaction_remove r (inr (VInt 7)) =
     delete_reaction h (message_channel_id m) (message_id m) (reaction_emoji r) (VInt 7)).
Proof.
  intros r.
  apply (@reaction_needs_its_message fixture thumbs (Some stub_client) None r (inr (VInt 7))).
  reflexivity.
Defined.

Lemma raw_events_agree_witness :
  let wave := mkPartialEmoji (VStr "wave") (Some 5) (VBool false) in
  RawReactionClearEmojiEvent_from_data reaction_added =
    Ok (mkRawReactionClearEmojiEvent 42 5 None wave) /\
  RawReactionClearEvent_from_data reaction_added = Ok (mkRawReactionClearEvent 42 5 None) /\
  "REACTION_ADD" = "REACTION_ADD".
Proof.
  intros wave.
  apply (raw_events_agree reaction_added "REACTION_ADD"
           (mkRawReactionActionEvent 42 5 None 7 wave "REACTION_ADD")).
  reflexivity.
Defined.

Lemma falsy_optional_ids_of_events_are_None_witness :
  (RawReactionActionEvent_from_data reaction_added "REACTION_REMOVE"
     = RawReactionActionEvent_from_data (delete "guild_id" reaction_added) "REACTION_REMOVE" /\
   forall a, RawReactionActionEvent_from_data reaction_added "REACTION_REMOVE" = Ok a ->
     action_guild_id a = None) /\
  (RawReactionClearEvent_from_data reactions_cleared
     = RawReactionClearEvent_from_data (delete "guild_id" reactions_cleared) /\
   forall c, RawReactionClearEvent_from_data reactions_cleared = Ok c ->
     clear_guild_id c = None) /\
  (RawReactionClearEmojiEvent_from_data emoji_cleared
     = RawReactionClearEmojiEvent_from_data (delete "guild_id" emoji_cleared) /\
   forall ce, RawReactionClearEmojiEvent_from_data emoji_cleared = Ok ce ->
     clear_emoji_guild_id ce = None).
Proof.
  apply (falsy_optional_ids_of_events_are_None reaction_added reactions_cleared
           emoji_cleared "REACTION_REMOVE"); reflexivity.
Defined.

(** The three payloads hydrate, each as its own event, and the two clear
    payloads do not hydrate as an action event. *)
Example raw_events_without_guild :
  RawReactionActionEvent_from_data reaction_added "REACTION_REMOVE"
    = Ok (mkRawReactionActionEvent 42 5 None 7
            (mkPartialEmoji (VStr "wave") (Some 5) (VBool false)) "REACTION_REMOVE") /\
  RawReactionClearEvent_from_data reactions_cleared = Ok (mkRawReactionClearEvent 42 5 None) /\
  RawReactionClearEmojiEvent_from_data emoji_cleared
    = Ok (mkRawReactionClearEmojiEvent 42 5 None
            (mkPartialEmoji (VStr "wave") (Some 5) (VBool false))) /\
  RawReactionActionEvent_from_data reactions_cleared "REACTION_ADD" = Raise (KeyError "emoji") /\
  RawReactionActionEvent_from_data emoji_cleared "REACTION_ADD" = Raise (KeyError "user_id").
Proof. repeat split; vm_compute; reflexivity. Qed.

Lemma hydration_fails_on_missing_key_or_int_witness :
  hydration_failure ["id"; "type"] ["id"; "guild_id"; "parent_id"]
    {[ "id" := VStr "12a"; "type" := VInt 0 ]}
    (ValueError "invalid literal for int() with base 10") /\
  hydration_failure ["id"] ["id"; "owner_id"] {[ "name" := VStr "home" ]} (KeyError "id") /\
  hydration_failure ["message_id"; "channel_id"] ["message_id"; "channel_id"; "guild_id"]
    {[ "message_id" := VInt 42; "channel_id" := VInt 5; "guild_id" := VList [VInt 9] ]}
    (TypeError "int() argument must be a string, a bytes-like object or a real number").
Proof.
  repeat apply conj.
  - apply (hydration_fails_on_missing_key_or_int _ None). reflexivity.
  - apply (hydration_fails_on_missing_key_or_int _ None). reflexivity.
  - apply (hydration_fails_on_missing_key_or_int _ None). reflexivity.
Defined.

Lemma member_roles_follow_the_payload_witness :
  let gm := mkGuildMember 7 (VStr "") VNone VNone VNone [10; 11] VNone VNone VNone None
              (VBool false) (VBool false) VNone None in
  (newcomer !! "roles" = None -> member_roles gm = []) /\
  (forall rs, newcomer !! "roles" = Some (VList rs) ->
   Forall2 (fun v n => int v = Ok n) rs (member_roles gm)) /\
  (getitem newcomer "user" ≫= fun u => User_from_data u None) = Ok (member_user gm) /\
  member_http gm = None /\
  (truthy (get newcomer "inviter_id" VNone) = false -> member_inviter_id gm = None).
Proof.
  intros gm. apply (@member_roles_follow_the_payload fixture newcomer None gm).
  reflexivity.
Defined.

(** The sample member has an empty nickname and a user with a global
    name. *)
Example display_name_of_newcomer :
  (GuildMember_display_name <$> GuildMember_from_data newcomer None) = Ok (VStr "Seven").
Proof. vm_compute. reflexivity. Qed.

End HydrationExamples.

(** ** More on handler discovery *)

Section DiscoveryFacts.

Import Cog.

(** *** The decorators *)

(** X21. The two decorators commute, keep the identity of the function
    and the tags it already carries, and stack: decorating again without a
    name keeps the name given before, decorating again with a name replaces
    it. *)
Theorem decorators_commute_and_stack
    (f : EventHandler) (c e : option string) (n n' : string) :
  command c (listener e f) = listener e (command c f) /\
  qualname (command c (listener e f)) = qualname f /\
  command None (command (Some n) f) = command (Some n) f /\
  command (Some n) (command (Some n') f) = command (Some n) f /\
  listener None (listener (Some n) f) = listener (Some n) f /\
  listener (Some n) (listener (Some n') f) = listener (Some n) f /\
  cmd_name n' (command (Some n) f) = n /\
  event_name n' (listener (Some n) f) = n /\
  cmd_name n' (command None (plain n)) = n' /\
  event_name n' (listener None (plain n)) = n'.
Proof. destruct f, c, e; repeat split. Qed.

(** *** Completeness and soundness of the indices *)

(** X22. Discovery misses nothing public: a listener method reached under
    a public name is in the list of its event, and the name that a public
    command method resolves to is bound to a command method.  A method
    that carries both tags is in both indices. *)
Theorem public_tagged_methods_are_registered
    (body : ClassBody) (b : EventHandler) (name : string) (m : EventHandler) :
  let self := __init__ body b in
  startswith_underscore name = false -> getattr self name = Some m ->
  (__cog_listener__ m = true ->
   exists l, _listeners self !! event_name name m = Some l /\ m ∈ l) /\
  (__cog_command__ m = true ->
   exists m', _commands self !! cmd_name name m = Some m' /\ __cog_command__ m' = true).
Proof.
  intros self Hp Hg.
  destruct (discovered_split_after body b name m Hp Hg) as (a & r & Hd & _).
  split.
  - intros Hl. unfold self. rewrite init_listeners_lookup, Hd.
    rewrite listeners_named_app, (listeners_named_cons _ name m) by auto.
    exists (listeners_named (event_name name m) a
              ++ m :: listeners_named (event_name name m) r). split.
    + destruct (listeners_named _ a); reflexivity.
    + apply elem_of_app. right. apply list_elem_of_here.
  - intros Hc. unfold self. rewrite init_commands_lookup, Hd.
    rewrite commands_named_app, (commands_named_cons _ name m) by auto.
    destruct (last (commands_named (cmd_name name m) a ++ m :: commands_named (cmd_name name m) r))
      as [m'|] eqn:Hlast.
    + exists m'. split; [reflexivity|].
      apply last_Some_elem_of in Hlast.
      rewrite <- (commands_named_cons _ name m), <- commands_named_app in Hlast by auto.
      apply elem_of_commands_named in Hlast as (? & _ & Htag & _). exact Htag.
    + apply last_None in Hlast. destruct (commands_named _ a); discriminate Hlast.
Qed.

(** X23. Every entry of the indices is sound: a registered command carries
    the command tag and is bound to its explicit name, or to a public name
    it is reached under when it has none; every registered listener carries
    the listener tag; and no event is bound to an empty list. *)
Theorem index_entries_are_tagged (body : ClassBody) (b : EventHandler) :
  let self := __init__ body b in
  (forall k m, _commands self !! k = Some m ->
   __cog_command__ m = true /\
   match __cog_command_name__ m with
   | Some n => k = n
   | None => startswith_underscore k = false /\ getattr self k = Some m
   end) /\
  (forall e l, _listeners self !! e = Some l ->
   l <> [] /\ Forall (fun m => __cog_listener__ m = true) l).
Proof.
  intros self. split.
  - intros k m Hk.
    apply registered_command_is_public in Hk as (n & Hp & Hg & Hc & Hn).
    split; [exact Hc|]. unfold cmd_name in Hn.
    destruct (__cog_command_name__ m) as [n'|]; cbn in Hn; subst k; auto.
  - intros e l Hl. split.
    + unfold self in Hl. rewrite init_listeners_lookup in Hl.
      destruct (listeners_named _ _); [discriminate Hl|]. injection Hl as <-. discriminate.
    + apply Forall_forall. intros m Hm.
      destruct (registered_listener_is_public body b e l m Hl Hm) as (_ & _ & _ & Ht & _).
      exact Ht.
Qed.

(** *** What the indices depend on *)

Lemma class_namespace_lookup (ns : gmap string EventHandler) (body : ClassBody) name m :
  foldl bind ns body !! name = Some m -> (name, m) ∈ body \/ ns !! name = Some m.
Proof.
  revert ns. induction body as [|[k v] body IH]; intros ns; cbn [foldl].
  - auto.
  - intros Hl. apply IH in Hl as [Hl|Hl].
    + left. apply list_elem_of_further, Hl.
    + unfold bind in Hl. cbn [fst snd] in Hl.
      destruct (decide (k = name)) as [->|Hne].
      * rewrite lookup_insert_eq in Hl. injection Hl as ->. left. apply list_elem_of_here.
      * rewrite lookup_insert_ne in Hl by exact Hne. auto.
Qed.

Lemma Cog_attrs_untagged name m :
  foldl bind ∅ Cog_attrs !! name = Some m ->
  __cog_command__ m = false /\ __cog_listener__ m = false.
Proof.
  intros Hl. apply class_namespace_lookup in Hl as [Hl|Hl].
  - unfold Cog_attrs in Hl.
    repeat (apply elem_of_cons in Hl as [[= _ ->]|Hl]; [split; reflexivity|]).
    inversion Hl.
  - rewrite lookup_empty in Hl. discriminate Hl.
Qed.

Lemma init_getattr body b name :
  getattr (__init__ body b) name =
  if decide (name = "bot") then Some b else class_namespace body !! name.
Proof. unfold getattr. rewrite init_cls, init_bot. reflexivity. Qed.

(** X24. A cog whose class body tags no method, and whose bot carries no
    tag, has empty indices: the public methods that [Cog] itself defines
    ([command], [listener], [cog_load], [cog_unload]) are looked at and
    not registered. *)
Theorem untagged_cog_has_empty_indices (body : ClassBody) (b : EventHandler) :
  __cog_command__ b = false -> __cog_listener__ b = false ->
  Forall (fun d => __cog_command__ d.2 = false /\ __cog_listener__ d.2 = false) body ->
  _commands (__init__ body b) = ∅ /\ _listeners (__init__ body b) = ∅.
Proof.
  intros Hbc Hbl Hbody.
  assert (forall name m, getattr (__init__ body b) name = Some m ->
            __cog_command__ m = false /\ __cog_listener__ m = false) as Hun.
  { intros name m. rewrite init_getattr. case_decide.
    - intros [= <-]. auto.
    - intros Hl. apply class_namespace_lookup in Hl as [Hl|Hl].
      + rewrite Forall_forall in Hbody. apply (Hbody _ Hl).
      + eapply Cog_attrs_untagged, Hl. }
  split; apply map_eq; intros k; rewrite lookup_empty.
  - destruct (_commands (__init__ body b) !! k) as [m|] eqn:Hk; [|reflexivity].
    apply registered_command_is_public in Hk as (n & _ & Hg & Hc & _).
    apply Hun in Hg as [Hg _]. congruence.
  - destruct (_listeners (__init__ body b) !! k) as [l|] eqn:Hk; [|reflexivity].
    exfalso. assert (exists m, m ∈ l) as [m Hm].
    { rewrite init_listeners_lookup in Hk. destruct (listeners_named _ _) as [|m l'];
        [discriminate Hk|]. injection Hk as <-. exists m. apply list_elem_of_here. }
    destruct (registered_listener_is_public body b k l m Hk Hm) as (n & _ & Hg & Hc & _).
    apply Hun in Hg as [_ Hg]. congruence.
Qed.

Lemma foldl_bind_Permutation (body body' : ClassBody) :
  Permutation body body' -> NoDup body.*1 ->
  forall ns, foldl bind ns body = foldl bind ns body'.
Proof.
  induction 1 as [|x l l' Hperm IH|x y l|l l' l'' H1 IH1 H2 IH2]; intros Hnd ns.
  - reflexivity.
  - cbn [foldl]. apply IH. cbn in Hnd. apply NoDup_cons in Hnd as [_ Hnd]. exact Hnd.
  - cbn [foldl]. f_equal. unfold bind. apply insert_insert_ne.
    cbn in Hnd. apply NoDup_cons in Hnd as [Hnot _]. intros Heq. apply Hnot.
    rewrite <- Heq. apply list_elem_of_here.
  - rewrite IH1 by exact Hnd. apply IH2. rewrite <- H1. exact Hnd.
Qed.

Lemma init_indices_ext (body body' : ClassBody) (b : EventHandler) :
  class_namespace body = class_namespace body' ->
  _commands (__init__ body b) = _commands (__init__ body' b) /\
  _listeners (__init__ body b) = _listeners (__init__ body' b).
Proof.
  intros Hns.
  assert (discovered (__init__ body b) = discovered (__init__ body' b)) as Hd.
  { rewrite !init_discovered. unfold dir, attribute_names, visit, getattr. cbn [cls Cog.bot].
    rewrite Hns. reflexivity. }
  split; apply map_eq; intros k.
  - rewrite !init_commands_lookup, Hd. reflexivity.
  - rewrite !init_listeners_lookup, Hd. reflexivity.
Qed.

(** X25. The indices do not depend on the order of the class body: two
    class bodies that bind the same methods to the same distinct names, in
    any order, give the same commands and the same listener lists. *)
Theorem indices_ignore_declaration_order (body body' : ClassBody) (b : EventHandler) :
  Permutation body body' -> NoDup body.*1 ->
  _commands (__init__ body b) = _commands (__init__ body' b) /\
  _listeners (__init__ body b) = _listeners (__init__ body' b).
Proof.
  intros Hperm Hnd. apply init_indices_ext. unfold class_namespace.
  apply foldl_bind_Permutation; assumption.
Qed.

(** X26. A method that the class body binds to the name [bot] only is
    never registered, whatever tags it carries: the attribute that
    [__init__] assigns hides it. *)
Theorem method_named_bot_is_shadowed
    (body : ClassBody) (b : EventHandler) (m : EventHandler) :
  let self := __init__ body b in
  m <> b ->
  (forall name, class_namespace body !! name = Some m -> name = "bot") ->
  (forall k, _commands self !! k <> Some m) /\
  (forall e l, _listeners self !! e = Some l -> m ∉ l).
Proof.
  intros self Hne Honly.
  assert (forall name, getattr self name <> Some m) as Hno.
  { intros name. unfold self. rewrite init_getattr. case_decide as Hb.
    - congruence.
    - intros Hl. apply Hb, Honly, Hl. }
  split.
  - intros k Hk. apply registered_command_is_public in Hk as (n & _ & Hg & _).
    exact (Hno n Hg).
  - intros e l Hl Hin.
    destruct (registered_listener_is_public body b e l m Hl Hin) as (n & _ & Hg & _).
    exact (Hno n Hg).
Qed.

End DiscoveryFacts.

Section DiscoveryExamples.

Import Cog Samples Fixtures.

Lemma public_tagged_methods_are_registered_witness :
  let self := __init__ Greeter the_bot in
  (__cog_listener__ alpha = true ->
   exists l, _listeners self !! event_name "alpha" alpha = Some l /\ alpha ∈ l) /\
  (__cog_command__ alpha = true ->
   exists m', _commands self !! cmd_name "alpha" alpha = Some m' /\
     __cog_command__ m' = true).
Proof.
  apply (public_tagged_methods_are_registered Greeter the_bot "alpha" alpha);
    vm_compute; reflexivity.
Defined.

Lemma untagged_cog_has_empty_indices_witness :
  _commands (__init__ Plain the_bot) = ∅ /\ _listeners (__init__ Plain the_bot) = ∅.
Proof.
  apply (untagged_cog_has_empty_indices Plain the_bot); [reflexivity | reflexivity |].
  repeat constructor.
Defined.

Lemma indices_ignore_declaration_order_witness :
  _commands (__init__ Greeter the_bot) = _commands (__init__ (reverse Greeter) the_bot) /\
  _listeners (__init__ Greeter the_bot) = _listeners (__init__ (reverse Greeter) the_bot).
Proof.
  apply (indices_ignore_declaration_order Greeter (reverse Greeter) the_bot).
  - symmetry. apply reverse_Permutation.
  - apply (bool_decide_unpack _). vm_compute. exact I.
Defined.

Lemma method_named_bot_is_shadowed_witness :
  let self := __init__ Shadowed the_bot in
  (forall k, _commands self !! k <> Some bot_method) /\
  (forall e l, _listeners self !! e = Some l -> bot_method ∉ l).
Proof.
  apply (method_named_bot_is_shadowed Shadowed the_bot bot_method); [discriminate|].
  intros name Hl.
  assert (map_Forall (fun n x => x = bot_method -> n = "bot") (class_namespace Shadowed))
    as Hall by (apply (bool_decide_unpack _); vm_compute; exact I).
  exact (Hall name bot_method Hl eq_refl).
Defined.

(** The command that [Shadowed] binds to [bot] is tagged, and only
    [ping] is registered. *)
Example Shadowed_indices :
  __cog_command__ bot_method = true /\
  _commands (__init__ Shadowed the_bot) = {[ "ping" := ping ]}.
Proof. split; vm_compute; reflexivity. Qed.

End DiscoveryExamples.
